(** * Google Maps integration filter

    A shallow embedding of [open-webui-functions/google_maps_filter.py]
    (class [Filter]): the keyword classifier [is_location_query], the
    backend client [call_maps_backend], the pre-call hook [inlet], the
    response enhancer [enhance_maps_response] and the post-call hook
    [outlet].

    Conventions of the embedding.
    - A Python [str] is a Rocq [string] holding its UTF-8 encoding.
      Concatenation, [in], repetition and the literal alternations given
      to [re.sub] act on the encoding exactly as they act on the code
      points, because no UTF-8 continuation byte starts a literal of the
      program.
    - Parsed JSON, request bodies and the user context are values of
      [pyval]; a [dict] is an association list in insertion order.
    - A raised exception is the [Raise] case of [result]; the HTTP call is
      an oracle [requests_post] and every call is appended to a trace.
    - [print] statements are dropped; an expression a [print] formats is
      still evaluated where its evaluation can raise.
    - What depends on the interpreter and its machine is a parameter:
      the lower-casing of the code points outside ASCII, [str()] of floats
      and containers, and the counts to which a string cannot be
      repeated. *)

From Stdlib Require Import String Ascii List ZArith Bool Lia DecimalString PrimFloat.
Import ListNotations.
Local Open Scope string_scope.

(** ** Strings *)

Module PyStr.

Definition nl : string := String "010"%char EmptyString.
Definition dquote : string := String "034"%char EmptyString.

(** [s.startswith(p)] *)
Fixpoint startswith (p s : string) : bool :=
  match p, s with
  | EmptyString, _ => true
  | String _ _, EmptyString => false
  | String a p', String b s' => Ascii.eqb a b && startswith p' s'
  end.

(** [k in s] for two strings: [k] starts at some position of [s]. *)
Fixpoint contains (k s : string) : bool :=
  startswith k s
  || match s with
     | EmptyString => false
     | String _ s' => contains k s'
     end.

Fixpoint repeat (s : string) (n : nat) : string :=
  match n with
  | O => EmptyString
  | S n' => s ++ repeat s n'
  end.

(** [s * n]: the empty string when [n <= 0]. *)
Definition mul (s : string) (n : Z) : string := repeat s (Z.to_nat n).

Fixpoint map (f : ascii -> ascii) (s : string) : string :=
  match s with
  | EmptyString => EmptyString
  | String c s' => String (f c) (map f s')
  end.

Fixpoint forallb (f : ascii -> bool) (s : string) : bool :=
  match s with
  | EmptyString => true
  | String c s' => f c && forallb f s'
  end.

Definition is_upper (c : ascii) : bool :=
  (65 <=? nat_of_ascii c)%nat && (nat_of_ascii c <=? 90)%nat.

Definition lower_char (c : ascii) : ascii :=
  if is_upper c then ascii_of_nat (nat_of_ascii c + 32) else c.

(** Lower-casing of the letters [A-Z]. *)
Definition lower_ascii (s : string) : string := map lower_char s.

Definition is_ascii_char (c : ascii) : bool := (nat_of_ascii c <? 128)%nat.
Definition is_ascii (s : string) : bool := forallb is_ascii_char s.

(** Bytes [10xxxxxx] continue a code point. *)
Definition is_continuation (c : ascii) : bool :=
  (128 <=? nat_of_ascii c)%nat && (nat_of_ascii c <? 192)%nat.

(** The code point a string starts with: its first byte and the
    continuation bytes after it. *)
Fixpoint continuation_bytes (s : string) : string :=
  match s with
  | EmptyString => EmptyString
  | String c r => if is_continuation c then String c (continuation_bytes r) else EmptyString
  end.

Definition first_codepoint (s : string) : string :=
  match s with
  | EmptyString => EmptyString
  | String c r => String c (continuation_bytes r)
  end.

(** The code points of a string, each as the string of its bytes. *)
Fixpoint codepoints (s : string) : list string :=
  match s with
  | EmptyString => []
  | String c r =>
      let rest := codepoints r in
      match r, rest with
      | String c' _, cp :: cps =>
          if is_continuation c' then String c cp :: cps
          else String c EmptyString :: rest
      | _, _ => String c EmptyString :: rest
      end
  end.

(** [sep.join(l)] *)
Definition join (sep : string) (l : list string) : string := String.concat sep l.

(** [str(z)] of an integer. *)
Definition of_Z (z : Z) : string := NilZero.string_of_int (Z.to_int z).

(** Two strings that differ at most in the case of the letters [A-Z]. *)
Definition same_ignoring_case (a b : string) : Prop :=
  lower_ascii a = lower_ascii b.

(** [k] occurs in [s]. *)
Definition Occurs (k s : string) : Prop :=
  exists pre post, s = pre ++ k ++ post.

(** Some stretch of [s] is [k] up to the case of [A-Z]. *)
Definition OccursIgnoringCase (k s : string) : Prop :=
  exists pre mid post, s = pre ++ mid ++ post /\ same_ignoring_case mid k.

End PyStr.

(** ** Values *)

(** An object carrying the attributes the filter looks for with [hasattr]
    (an instance of [Filter.UserValves], whose fields pydantic types as
    [int] and [bool]); [None] is an attribute the object does not have. *)
Module UserValves.
Record t : Type := Build {
  max_turns : option Z;
  enable_maps_for_user : option bool
}.
(** [Filter.UserValves()] with its declared defaults. *)
Definition default : t :=
  {| max_turns := Some 4%Z; enable_maps_for_user := Some true |}.
End UserValves.

#[warnings="-register-all"]
Inductive pyval : Type :=
| VNone
| VBool (b : bool)
| VInt (z : Z)
| VFloat (f : float)
| VStr (s : string)
| VList (l : list pyval)
| VDict (d : list (string * pyval))
| VObj (o : UserValves.t).

Definition dict : Type := list (string * pyval).

(** Exceptions of the program, all of them subclasses of [Exception]:
    [Exception] itself is what [inlet] raises for the turn limit, the
    others are raised by builtins, by [requests.post] and by
    [response.json()]. *)
Inductive exn : Type :=
| Exception (msg : string)
| KeyError
| TypeError
| AttributeError
| RequestException
| JSONDecodeError
| OverflowError
| MemoryError.

Inductive result (A : Type) : Type :=
| Ok (a : A)
| Raise (e : exn).
Arguments Ok {A} a.
Arguments Raise {A} e.

Definition bind {A B : Type} (m : result A) (k : A -> result B) : result B :=
  match m with
  | Ok a => k a
  | Raise e => Raise e
  end.

Declare Scope py_scope.
Delimit Scope py_scope with py.
Notation "x <- m ;; k" := (bind m (fun x => k))
  (at level 61, m at next level, right associativity) : py_scope.

(** Truth value of a value in a condition. *)
Definition truthy (v : pyval) : bool :=
  match v with
  | VNone => false
  | VBool b => b
  | VInt z => negb (z =? 0)%Z
  | VFloat f => negb (PrimFloat.eqb f 0%float)
  | VStr s => negb (s =? "")
  | VList l => match l with [] => false | _ => true end
  | VDict d => match d with [] => false | _ => true end
  | VObj _ => true
  end.

(** Lookup in a [dict]. *)
Fixpoint dict_get (d : dict) (k : string) : option pyval :=
  match d with
  | [] => None
  | (k', v) :: d' => if k' =? k then Some v else dict_get d' k
  end.

(** [d[k] = v]: the value is replaced where the key is, or the pair is
    added at the end. *)
Fixpoint dict_set (d : dict) (k : string) (v : pyval) : dict :=
  match d with
  | [] => [(k, v)]
  | (k', v') :: d' => if k' =? k then (k', v) :: d' else (k', v') :: dict_set d' k v
  end.

(** [d.get(k, default)] on a [dict]. *)
Definition get_or (d : dict) (k : string) (default : pyval) : pyval :=
  match dict_get d k with
  | Some v => v
  | None => default
  end.

(** [v.get(k, default)] on any value: only a [dict] has the method. *)
Definition py_get (v : pyval) (k : string) (default : pyval) : result pyval :=
  match v with
  | VDict d => Ok (get_or d k default)
  | _ => Raise AttributeError
  end.

(** [v[k]] with a string key. *)
Definition py_getitem (v : pyval) (k : string) : result pyval :=
  match v with
  | VDict d => match dict_get d k with
               | Some x => Ok x
               | None => Raise KeyError
               end
  | _ => Raise TypeError
  end.

(** [k in v] with a string [k]. *)
Definition py_in (k : string) (v : pyval) : result bool :=
  match v with
  | VDict d => Ok (match dict_get d k with Some _ => true | None => false end)
  | VList l => Ok (existsb (fun x => match x with VStr s => s =? k | _ => false end) l)
  | VStr s => Ok (PyStr.contains k s)
  | _ => Raise TypeError
  end.

(** [len(v)] *)
Definition py_len (v : pyval) : result Z :=
  match v with
  | VList l => Ok (Z.of_nat (List.length l))
  | VDict d => Ok (Z.of_nat (List.length d))
  | VStr s => Ok (Z.of_nat (List.length (PyStr.codepoints s)))
  | _ => Raise TypeError
  end.

(** [v[-1]] on a value already found truthy. *)
Definition py_last (v : pyval) : result pyval :=
  match v with
  | VList l => match rev l with
               | x :: _ => Ok x
               | [] => Raise KeyError
               end
  | VStr s => match rev (PyStr.codepoints s) with
              | c :: _ => Ok (VStr c)
              | [] => Raise KeyError
              end
  | VDict _ => Raise KeyError
  | _ => Raise TypeError
  end.

(** [hasattr(v, 'max_turns')] and [hasattr(v, 'enable_maps_for_user')]:
    no JSON value has either attribute. *)
Definition attr_max_turns (v : pyval) : option Z :=
  match v with
  | VObj o => UserValves.max_turns o
  | _ => None
  end.

Definition attr_enable_maps_for_user (v : pyval) : option bool :=
  match v with
  | VObj o => UserValves.enable_maps_for_user o
  | _ => None
  end.

(** ** Configuration *)

Module Valves.
Record t : Type := Build {
  priority : Z;
  max_turns : Z;
  maps_api_base_url : string;
  enable_maps_integration : bool
}.
(** [Filter.Valves()], with [MAPS_API_BASE_URL] unset. *)
Definition default : t :=
  {| priority := 0;
     max_turns := 8;
     maps_api_base_url := "http://localhost:3000";
     enable_maps_integration := true |}.
End Valves.

(** ** The HTTP collaborator *)

(** One [requests.post(url, json=..., headers=..., timeout=...)]. *)
Record request : Type := {
  req_url : string;
  req_json : pyval;
  req_headers : list (string * string);
  req_timeout : Z
}.

(** What the call does: it raises, or it returns a response with a status
    code whose [json()] returns a value or raises. *)
Inductive http_outcome : Type :=
| PostRaises (e : exn)
| Response (status_code : Z) (json : result pyval).

(** The requests made so far, oldest first. *)
Definition trace : Type := list request.

(** A computation that may call the backend and may raise. *)
Definition IO (A : Type) : Type := trace -> result A * trace.

Definition io_ret {A : Type} (a : A) : IO A := fun t => (Ok a, t).

Definition io_lift {A : Type} (r : result A) : IO A := fun t => (r, t).

Definition io_bind {A B : Type} (m : IO A) (k : A -> IO B) : IO B :=
  fun t => match m t with
           | (Ok a, t') => k a t'
           | (Raise e, t') => (Raise e, t')
           end.

Declare Scope io_scope.
Delimit Scope io_scope with io.
Notation "x <- m ;; k" := (io_bind m (fun x => k))
  (at level 61, m at next level, right associativity) : io_scope.

(** ** Glyphs of the program *)

Module Glyph.
Definition map_ : string := "🗺️".
Definition pin : string := "📍".
Definition star : string := "⭐".
Definition compass : string := "🧭".
Definition money : string := "💰".
Definition globe : string := "🌐".
Definition phone : string := "📞".
Definition green : string := "🟢".
Definition red : string := "🔴".
Definition clock : string := "🕒".
End Glyph.

(** ** Regular-expression substitution, for the patterns of the program

    [re.sub] with a pattern [(a1|a2|...)tail] of literals: scanning from
    the left, at each position the first alternative [a] with [a ++ tail]
    at that position is replaced by [repl a] and the scan goes on after
    the match; where none matches, the character is kept. [skip] counts
    the characters of a match still to be passed over. *)

Fixpoint first_match (alts : list string) (tail s : string) : option string :=
  match alts with
  | [] => None
  | a :: alts' =>
      if PyStr.startswith (a ++ tail) s then Some a else first_match alts' tail s
  end.

Fixpoint re_sub_from (alts : list string) (tail : string) (repl : string -> string)
    (s : string) (skip : nat) : string :=
  match s with
  | EmptyString => EmptyString
  | String c rest =>
      match skip with
      | S n => re_sub_from alts tail repl rest n
      | O =>
          match first_match alts tail s with
          | Some a =>
              repl a ++ re_sub_from alts tail repl rest (String.length (a ++ tail) - 1)
          | None => String c (re_sub_from alts tail repl rest 0)
          end
      end
  end.

Definition re_sub (alts : list string) (tail : string) (repl : string -> string)
    (s : string) : string :=
  re_sub_from alts tail repl s 0.

(** ** The filter *)

(** [self.location_keywords] *)
Definition location_keywords : list string :=
  [ "find"; "search"; "locate"; "where"; "near"; "nearby"; "around"; "closest"; "nearest";
    "restaurant"; "coffee"; "shop"; "store"; "hotel"; "gas station"; "bank"; "hospital";
    "pharmacy"; "mall"; "market";
    "cari"; "temukan"; "dimana"; "dekat"; "terdekat"; "sekitar"; "lokasi"; "tempat";
    "restoran"; "rumah makan"; "warung"; "kafe"; "toko"; "hotel"; "spbu"; "bank";
    "rumah sakit"; "apotek"; "mall"; "pasar" ].

(** [enhance_maps_response] *)
Definition enhance_maps_response (content : string) : string :=
  let enhanced := content in
  let enhanced :=
    re_sub ["Google Maps"; "Maps"; "Lokasi"; "Location"] ""
      (fun g => Glyph.map_ ++ " " ++ g) enhanced in
  let enhanced :=
    re_sub ["Address"; "Alamat"] ":" (fun g => Glyph.pin ++ " " ++ g ++ ":") enhanced in
  let enhanced :=
    re_sub ["Rating"; Glyph.star] "" (fun _ => Glyph.star ++ " Rating") enhanced in
  let enhanced :=
    re_sub ["Direction"; "Petunjuk"; "Arah"] "" (fun g => Glyph.compass ++ " " ++ g) enhanced in
  enhanced.

(** [v[0]] on a value already found truthy. *)
Definition py_first (v : pyval) : result pyval :=
  match v with
  | VList (x :: _) => Ok x
  | VStr s => match PyStr.codepoints s with
              | c :: _ => Ok (VStr c)
              | [] => Raise KeyError
              end
  | VList [] | VDict _ => Raise KeyError
  | _ => Raise TypeError
  end.

(** [re.sub] accepts a string only. *)
Definition enhance_value (content : pyval) : result string :=
  match content with
  | VStr s => Ok (enhance_maps_response s)
  | _ => Raise TypeError
  end.

(** [m["content"] = text] where [m] is the value under ["message"] of [holder]. *)
Definition set_message_content (holder : pyval) (text : string) : result pyval :=
  (message <- py_getitem holder "message" ;;
   match holder, message with
   | VDict h, VDict m => Ok (VDict (dict_set h "message" (VDict (dict_set m "content" (VStr text)))))
   | _, _ => Raise TypeError
   end)%py.

(** ["choices" in body and body["choices"]] *)
Definition has_choices (body : dict) : bool :=
  match dict_get body "choices" with
  | Some c => truthy c
  | None => false
  end.

(** ["message" in body] *)
Definition has_message (body : dict) : bool :=
  match dict_get body "message" with
  | Some _ => true
  | None => false
  end.

(** [outlet] *)
Definition outlet (body : dict) (user : option dict) : result dict :=
  (response_content <-
     (if has_choices body then
        choices <- py_getitem (VDict body) "choices" ;;
        first <- py_first choices ;;
        message <- py_get first "message" (VDict []) ;;
        py_get message "content" (VStr "")
      else if has_message body then
        message <- py_getitem (VDict body) "message" ;;
        py_get message "content" (VStr "")
      else Ok (VStr "")) ;;
   if truthy response_content then
     enhanced_content <- enhance_value response_content ;;
     if has_choices body then
       choices <- py_getitem (VDict body) "choices" ;;
       match choices with
       | VList (first :: others) =>
           first' <- set_message_content first enhanced_content ;;
           Ok (dict_set body "choices" (VList (first' :: others)))
       | _ => Raise TypeError
       end
     else if has_message body then
       updated <- set_message_content (VDict body) enhanced_content ;;
       match updated with
       | VDict body' => Ok body'
       | _ => Raise TypeError
       end
     else Ok body
   else Ok body)%py.

(** The count a value stands for where a string is repeated: an integer,
    [True] and [False] being 1 and 0. *)
Definition count_of (v : pyval) : option Z :=
  match v with
  | VInt n => Some n
  | VBool b => Some (if b then 1 else 0)%Z
  | _ => None
  end.

(** What the filter takes from the interpreter:
    - [unicode_lower whole i], the lower-casing of the code point outside
      ASCII that starts at byte [i] of [whole] (Python reads it off the
      Unicode tables and, for a capital sigma, off the neighbours);
    - [str_other], [str()] of floats and containers;
    - [repeat_error n], the exception, if any, that repeating a
      one-character string [n] times raises: [OverflowError] when [n] does
      not fit an index, [MemoryError] when the result cannot be allocated;
    - [requests_post], the backend as [requests.post] finds it. *)
Section Filter.

Variable unicode_lower : string -> nat -> string.
Variable str_other : pyval -> string.
Variable repeat_error : Z -> option exn.
Variable requests_post : request -> http_outcome.

(** [s.lower()] over the encoding, from byte [i] of [whole] on: an ASCII
    byte is lower-cased in place; the lead byte of a code point outside
    ASCII gives the lower-casing of that code point, and the continuation
    bytes after it give nothing ([inside] says that the byte before was
    part of such a code point). A continuation byte that continues
    nothing, which the encoding of a [str] never has, is kept. *)
Fixpoint lower_from (whole : string) (i : nat) (inside : bool) (s : string) : string :=
  match s with
  | EmptyString => EmptyString
  | String c r =>
      if PyStr.is_ascii_char c then
        String (PyStr.lower_char c) (lower_from whole (S i) false r)
      else if PyStr.is_continuation c then
        if inside then lower_from whole (S i) true r
        else String c (lower_from whole (S i) false r)
      else unicode_lower whole i ++ lower_from whole (S i) true r
  end.

Definition lower (s : string) : string := lower_from s 0 false s.

(** [message.lower()]: a method of [str]. *)
Definition py_lower (message : pyval) : result string :=
  match message with
  | VStr s => Ok (lower s)
  | _ => Raise AttributeError
  end.

(** [str(v)], as an f-string formats a field. *)
Definition py_str (v : pyval) : string :=
  match v with
  | VNone => "None"
  | VBool true => "True"
  | VBool false => "False"
  | VInt z => PyStr.of_Z z
  | VStr s => s
  | _ => str_other v
  end.

(** [is_location_query] *)
Definition is_location_query (message : pyval) : result bool :=
  (message_lower <- py_lower message ;;
   Ok (existsb (fun keyword => PyStr.contains keyword message_lower) location_keywords))%py.

(** [sep.join(v)]: the items of a list must be strings; a string is
    joined by code points and a [dict] by keys. *)
Fixpoint all_strings (l : list pyval) : result (list string) :=
  match l with
  | [] => Ok []
  | VStr s :: l' => (rest <- all_strings l' ;; Ok (s :: rest))%py
  | _ :: _ => Raise TypeError
  end.

Definition py_join (sep : string) (v : pyval) : result string :=
  match v with
  | VList l => (items <- all_strings l ;; Ok (PyStr.join sep items))%py
  | VStr s => Ok (PyStr.join sep (PyStr.codepoints s))
  | VDict d => Ok (PyStr.join sep (List.map fst d))
  | _ => Raise TypeError
  end.

(** [create_maps_context] *)
Definition create_maps_context (maps_data query : pyval) : result string :=
  (formatted_places <- py_get maps_data "formatted_places" (VList []) ;;
   map_url <- py_get maps_data "map_url" (VStr "") ;;
   directions_url <- py_get maps_data "directions_url" (VStr "") ;;
   places_text <-
     (if truthy formatted_places
      then py_join (PyStr.nl ++ PyStr.nl) formatted_places
      else Ok "No places found") ;;
   Ok ("GOOGLE MAPS SEARCH RESULTS for query: " ++ PyStr.dquote ++ py_str query
         ++ PyStr.dquote ++ PyStr.nl
       ++ PyStr.nl
       ++ "FOUND LOCATIONS:" ++ PyStr.nl
       ++ places_text ++ PyStr.nl
       ++ PyStr.nl
       ++ "MAP LINKS:" ++ PyStr.nl
       ++ "- View on Google Maps: " ++ py_str map_url ++ PyStr.nl
       ++ "- Get Directions: " ++ py_str directions_url ++ PyStr.nl
       ++ PyStr.nl
       ++ "Please use this Google Maps data to provide a helpful response about these locations."))%py.

(** ["💰" * v]: the count must be an integer (a [bool] is one), and one
    the string can be repeated to. *)
Definition py_repeat (s : string) (v : pyval) : result string :=
  match count_of v with
  | Some n =>
      match repeat_error n with
      | Some e => Raise e
      | None => Ok (PyStr.mul s n)
      end
  | None => Raise TypeError
  end.

(** The body of the loop over [places[:5]] in [call_maps_backend]: the
    text block of one place. *)
Definition format_place (place : pyval) : result string :=
  (name <- py_getitem place "name" ;;
   let info := Glyph.pin ++ " **" ++ py_str name ++ "**" in
   rating <- py_get place "rating" VNone ;;
   info <-
     (if truthy rating then
        rating <- py_getitem place "rating" ;;
        Ok (info ++ " (" ++ Glyph.star ++ " " ++ py_str rating ++ "/5)")
      else Ok info) ;;
   address <- py_getitem place "formatted_address" ;;
   let info := info ++ PyStr.nl ++ "   " ++ Glyph.pin ++ " " ++ py_str address in
   price_level <- py_get place "price_level" VNone ;;
   info <-
     (if truthy price_level then
        price_level <- py_getitem place "price_level" ;;
        price_symbols <- py_repeat Glyph.money price_level ;;
        Ok (info ++ PyStr.nl ++ "   " ++ Glyph.money ++ " Price Level: " ++ price_symbols)
      else Ok info) ;;
   website <- py_get place "website" VNone ;;
   info <-
     (if truthy website then
        website <- py_getitem place "website" ;;
        Ok (info ++ PyStr.nl ++ "   " ++ Glyph.globe ++ " Website: " ++ py_str website)
      else Ok info) ;;
   phone <- py_get place "formatted_phone_number" VNone ;;
   info <-
     (if truthy phone then
        phone <- py_getitem place "formatted_phone_number" ;;
        Ok (info ++ PyStr.nl ++ "   " ++ Glyph.phone ++ " Phone: " ++ py_str phone)
      else Ok info) ;;
   opening_hours <- py_get place "opening_hours" VNone ;;
   has_status <-
     (if truthy opening_hours then
        opening_hours <- py_getitem place "opening_hours" ;;
        open_now <- py_get opening_hours "open_now" VNone ;;
        Ok (match open_now with VNone => false | _ => true end)
      else Ok false) ;;
   if has_status then
     opening_hours <- py_getitem place "opening_hours" ;;
     open_now <- py_getitem opening_hours "open_now" ;;
     let status :=
       if truthy open_now then Glyph.green ++ " Open Now" else Glyph.red ++ " Closed" in
     Ok (info ++ PyStr.nl ++ "   " ++ Glyph.clock ++ " Status: " ++ status)
   else Ok info)%py.

(** The loop [for place in ...: place_info.append(info)]. *)
Fixpoint format_places (places : list pyval) : result (list pyval) :=
  match places with
  | [] => Ok []
  | place :: places' =>
      (info <- format_place place ;;
       place_info <- format_places places' ;;
       Ok (VStr info :: place_info))%py
  end.

(** [places[:5]] on a value already found truthy, as the items the loop
    visits. *)
Definition py_first5 (places : pyval) : result (list pyval) :=
  match places with
  | VList l => Ok (firstn 5 l)
  | VStr s => Ok (List.map VStr (firstn 5 (PyStr.codepoints s)))
  | _ => Raise TypeError
  end.

(** What [call_maps_backend] does with [result = response.json()] of a
    200 response (here [parsed]). *)
Definition extract_places (parsed : pyval) : result pyval :=
  (success <- py_get parsed "success" VNone ;;
   has_data <- (if truthy success then py_in "data" parsed else Ok false) ;;
   if has_data then
     data <- py_getitem parsed "data" ;;
     places <- py_get data "places" (VList []) ;;
     if truthy places then
       shown <- py_first5 places ;;
       place_info <- format_places shown ;;
       map_url <- py_get data "map_url" VNone ;;
       directions_url <- py_get data "directions_url" VNone ;;
       center <- py_get data "center" VNone ;;
       zoom <- py_get data "zoom" VNone ;;
       Ok (VDict [ ("formatted_places", VList place_info);
                   ("map_url", map_url);
                   ("directions_url", directions_url);
                   ("center", center);
                   ("zoom", zoom);
                   ("raw_data", parsed) ])
     else Ok parsed
   else Ok parsed)%py.

(** The request [call_maps_backend] sends for a query. *)
Definition search_request (valves : Valves.t) (query : pyval) : request :=
  {| req_url := Valves.maps_api_base_url valves ++ "/api/search";
     req_json := VDict [("query", query); ("radius", VInt 5000); ("type", VStr "restaurant")];
     req_headers := [("Content-Type", "application/json")];
     req_timeout := 30 |}.

(** The [try] block of [call_maps_backend]. *)
Definition call_maps_backend_try (valves : Valves.t) (query : pyval) : IO pyval :=
  fun t =>
    let r := search_request valves query in
    let t' := (t ++ [r])%list in
    match requests_post r with
    | PostRaises e => (Raise e, t')
    | Response status_code json =>
        if (status_code =? 200)%Z
        then ((parsed <- json ;; extract_places parsed)%py, t')
        else (Ok VNone, t')
    end.

(** [call_maps_backend]: both [except] clauses return [None]. *)
Definition call_maps_backend (valves : Valves.t) (query : pyval) : IO pyval :=
  fun t =>
    match call_maps_backend_try valves query t with
    | (Ok v, t') => (Ok v, t')
    | (Raise RequestException, t') => (Ok VNone, t')
    | (Raise _, t') => (Ok VNone, t')
    end.

(** [role in ["user", "admin"]] *)
Definition role_checked (role : pyval) : bool :=
  match role with
  | VStr s => (s =? "user") || (s =? "admin")
  | _ => false
  end.

(** [__user__.get("valves")] behind a test of [__user__]. *)
Definition user_valves_of (user : option dict) : pyval :=
  match user with
  | Some u => if truthy (VDict u) then get_or u "valves" VNone else VNone
  | None => VNone
  end.

(** [user_max_turns] as the turn check computes it: 4 unless the user's
    valves carry [max_turns]. *)
Definition user_max_turns_of (user_valves : pyval) : Z :=
  let user_max_turns := 4%Z in
  if truthy user_valves then
    match attr_max_turns user_valves with
    | Some n => n
    | None => user_max_turns
    end
  else user_max_turns.

(** [min(user_max_turns, self.valves.max_turns)] for a user context. *)
Definition effective_max_turns (valves : Valves.t) (u : dict) : Z :=
  Z.min (user_max_turns_of (get_or u "valves" VNone)) (Valves.max_turns valves).

Definition turn_limit_message (max_turns : Z) : string :=
  "Conversation turn limit exceeded. Max turns: " ++ PyStr.of_Z max_turns.

(** The first [if] of [inlet]: the check of the conversation turn limit. *)
Definition check_turn_limit (valves : Valves.t) (body : dict) (user : option dict)
  : result unit :=
  match user with
  | Some u =>
      if truthy (VDict u) && role_checked (get_or u "role" (VStr "admin")) then
        let messages := get_or body "messages" (VList []) in
        let user_valves := get_or u "valves" VNone in
        let max_turns := Z.min (user_max_turns_of user_valves) (Valves.max_turns valves) in
        (n <- py_len messages ;;
         if (n >? max_turns)%Z
         then Raise (Exception (turn_limit_message max_turns))
         else Ok tt)%py
      else Ok tt
  | None => Ok tt
  end.

(** [user_valves and hasattr(user_valves, 'enable_maps_for_user')
    and not user_valves.enable_maps_for_user] *)
Definition disabled_for_user (user_valves : pyval) : bool :=
  truthy user_valves
  && match attr_enable_maps_for_user user_valves with
     | Some enabled => negb enabled
     | None => false
     end.

(** [role != "user"] *)
Definition not_user_role (role : pyval) : bool :=
  match role with
  | VStr s => negb (s =? "user")
  | _ => true
  end.

(** The system message [inlet] builds around the maps context. *)
Definition system_message (maps_context : string) : pyval :=
  VDict
    [ ("role", VStr "system");
      ("content",
       VStr ("You are GoogleMapsAI, an intelligent assistant that helps users find locations using Google Maps data."
             ++ PyStr.nl
             ++ PyStr.nl
             ++ maps_context ++ PyStr.nl
             ++ PyStr.nl
             ++ "Please provide a helpful, conversational response about these locations. Include:"
             ++ PyStr.nl
             ++ "1. A brief summary of what was found" ++ PyStr.nl
             ++ "2. Key details about the top locations (name, rating, address)" ++ PyStr.nl
             ++ "3. Helpful suggestions or recommendations" ++ PyStr.nl
             ++ "4. Map and directions links when relevant" ++ PyStr.nl
             ++ PyStr.nl
             ++ "Be natural, friendly, and informative in your response.")) ].

(** [[system] + messages]: only a list can be added to a list. *)
Definition prepend (first messages : pyval) : result pyval :=
  match messages with
  | VList l => Ok (VList (first :: l))
  | _ => Raise TypeError
  end.

(** [inlet] *)
Definition inlet (valves : Valves.t) (body : dict) (user : option dict) : IO dict :=
  (_ <- io_lift (check_turn_limit valves body user) ;;
   if negb (Valves.enable_maps_integration valves) then io_ret body
   else
     let user_valves := user_valves_of user in
     if disabled_for_user user_valves then io_ret body
     else
       let messages := get_or body "messages" (VList []) in
       _ <- io_lift (py_len messages) ;;
       if negb (truthy messages) then io_ret body
       else
         latest_message <- io_lift (py_last messages) ;;
         role <- io_lift (py_get latest_message "role" VNone) ;;
         if not_user_role role then io_ret body
         else
           user_query <- io_lift (py_get latest_message "content" (VStr "")) ;;
           is_location <- io_lift (is_location_query user_query) ;;
           if is_location : bool then
             maps_result <- call_maps_backend valves user_query ;;
             if truthy maps_result then
               maps_context <- io_lift (create_maps_context maps_result user_query) ;;
               enhanced_messages <- io_lift (prepend (system_message maps_context) messages) ;;
               io_ret (dict_set body "messages" enhanced_messages)
             else io_ret body
           else io_ret body)%io.

End Filter.

(** ** What the statements below speak of *)

(** A string without its first [n] characters. *)
Fixpoint string_drop (n : nat) (s : string) : string :=
  match n, s with
  | S n', String _ s' => string_drop n' s'
  | _, _ => s
  end.

(** Text without an ASCII character. *)
Definition ascii_free (s : string) : bool :=
  PyStr.forallb (fun b => negb (PyStr.is_ascii_char b)) s.

(** The code points of [m] outside ASCII lower-case to text outside
    ASCII: to something, and to nothing with an ASCII character in it.
    (Of Python's lower-casing this holds for every code point but the
    Kelvin sign, which becomes [k], and the dotted capital I, which
    becomes [i] and a combining dot.) *)
Definition lowers_outside_ascii (unicode_lower : string -> nat -> string) (m : string) : Prop :=
  forall i c,
    String.get i m = Some c ->
    PyStr.is_ascii_char c = false ->
    PyStr.is_continuation c = false ->
    unicode_lower m i <> "" /\ ascii_free (unicode_lower m i) = true.

(** The same of the code points of [s], which is [whole] from byte [i]
    on. *)
Definition lowers_well (unicode_lower : string -> nat -> string) (whole : string) (i : nat)
    (s : string) : Prop :=
  forall j c,
    String.get j s = Some c ->
    PyStr.is_ascii_char c = false ->
    PyStr.is_continuation c = false ->
    unicode_lower whole (i + j) <> "" /\ ascii_free (unicode_lower whole (i + j)) = true.

(** Occurrences of [k] in [s], counted by starting position. *)
Fixpoint count_occurrences (k s : string) : nat :=
  (if PyStr.startswith k s then 1 else 0)
  + match s with
    | EmptyString => 0
    | String _ s' => count_occurrences k s'
    end.

(** The fields a place block can show, in the order the block lists them. *)
Inductive field : Type :=
| Name | Rating | Address | PriceLevel | Website | Phone | Status.

Definition block_fields : list field :=
  [Name; Rating; Address; PriceLevel; Website; Phone; Status].

(** The key of the place record a field is read from. *)
Definition field_key (f : field) : string :=
  match f with
  | Name => "name"
  | Rating => "rating"
  | Address => "formatted_address"
  | PriceLevel => "price_level"
  | Website => "website"
  | Phone => "formatted_phone_number"
  | Status => "opening_hours"
  end.

(** A field is present in a record when the record has its key. *)
Definition field_present (d : dict) (f : field) : bool :=
  match dict_get d (field_key f) with
  | Some _ => true
  | None => false
  end.

(** [open_now] of an [opening_hours] value, [None] when there is none. *)
Definition open_now_of (opening_hours : pyval) : pyval :=
  match opening_hours with
  | VDict h => get_or h "open_now" VNone
  | _ => VNone
  end.

Definition is_none (v : pyval) : bool :=
  match v with
  | VNone => true
  | _ => false
  end.

(** When a block shows a field: the name and the address always; the
    status when [opening_hours] is truthy and its [open_now] is not
    [None]; any other field when its value is truthy. *)
Definition field_shown (d : dict) (f : field) : bool :=
  match f with
  | Name | Address => true
  | Status =>
      truthy (get_or d "opening_hours" VNone)
      && negb (is_none (open_now_of (get_or d "opening_hours" VNone)))
  | _ => truthy (get_or d (field_key f) VNone)
  end.

(** The text a block gives a field. *)
Definition field_text (str_other : pyval -> string) (repeat_error : Z -> option exn)
    (d : dict) (f : field) : string :=
  let v := get_or d (field_key f) VNone in
  match f with
  | Name => Glyph.pin ++ " **" ++ py_str str_other v ++ "**"
  | Rating => " (" ++ Glyph.star ++ " " ++ py_str str_other v ++ "/5)"
  | Address => PyStr.nl ++ "   " ++ Glyph.pin ++ " " ++ py_str str_other v
  | PriceLevel =>
      PyStr.nl ++ "   " ++ Glyph.money ++ " Price Level: "
      ++ match py_repeat repeat_error Glyph.money v with
         | Ok symbols => symbols
         | Raise _ => ""
         end
  | Website => PyStr.nl ++ "   " ++ Glyph.globe ++ " Website: " ++ py_str str_other v
  | Phone => PyStr.nl ++ "   " ++ Glyph.phone ++ " Phone: " ++ py_str str_other v
  | Status =>
      PyStr.nl ++ "   " ++ Glyph.clock ++ " Status: "
      ++ (if truthy (open_now_of v) then Glyph.green ++ " Open Now"
          else Glyph.red ++ " Closed")
  end.

(** The texts of a list of fields, one after the other. *)
Definition block_of (texts : list string) : string :=
  fold_left append texts "".

(** A count the glyph can be repeated to. *)
Definition is_count (repeat_error : Z -> option exn) (v : pyval) : bool :=
  match count_of v with
  | Some n => match repeat_error n with
              | None => true
              | Some _ => false
              end
  | None => false
  end.

Definition is_dict (v : pyval) : bool :=
  match v with
  | VDict _ => true
  | _ => false
  end.

(** A place record: an object with a name and a formatted address, whose
    price level, unless falsy, is an integer the glyph can be repeated to
    and whose opening hours, unless falsy, are an object. *)
Definition is_place_record (repeat_error : Z -> option exn) (place : pyval) : bool :=
  match place with
  | VDict d =>
      field_present d Name
      && field_present d Address
      && (negb (truthy (get_or d "price_level" VNone))
          || is_count repeat_error (get_or d "price_level" VNone))
      && (negb (truthy (get_or d "opening_hours" VNone))
          || is_dict (get_or d "opening_hours" VNone))
  | _ => false
  end.

(** The [dict] [call_maps_backend] returns around the formatted places. *)
Definition formatted_result (blocks : list string) (data : dict) (parsed : pyval) : pyval :=
  VDict [ ("formatted_places", VList (List.map VStr blocks));
          ("map_url", get_or data "map_url" VNone);
          ("directions_url", get_or data "directions_url" VNone);
          ("center", get_or data "center" VNone);
          ("zoom", get_or data "zoom" VNone);
          ("raw_data", parsed) ].

(** The cases in which the pre-call hook has nothing to inject: an
    integration flag is off, there is no message, the latest message is
    not the user's, it is no location query, or the backend client gives
    no result (a falsy value; in particular when the request fails or
    the status is not 200). *)
Inductive passes_through (unicode_lower : string -> nat -> string)
    (str_other : pyval -> string) (repeat_error : Z -> option exn)
    (requests_post : request -> http_outcome) (valves : Valves.t) (body : dict)
    (user : option dict) : Prop :=
| Integration_off :
    Valves.enable_maps_integration valves = false ->
    passes_through unicode_lower str_other repeat_error requests_post valves body user
| Integration_off_for_user (u : dict) (o : UserValves.t) :
    user = Some u ->
    dict_get u "valves" = Some (VObj o) ->
    UserValves.enable_maps_for_user o = Some false ->
    passes_through unicode_lower str_other repeat_error requests_post valves body user
| No_messages :
    get_or body "messages" (VList []) = VList [] ->
    passes_through unicode_lower str_other repeat_error requests_post valves body user
| Latest_not_from_user (earlier : list pyval) (latest : dict) :
    get_or body "messages" (VList []) = VList (earlier ++ [VDict latest]) ->
    not_user_role (get_or latest "role" VNone) = true ->
    passes_through unicode_lower str_other repeat_error requests_post valves body user
| Not_a_location_query (earlier : list pyval) (latest : dict) (text : string) :
    get_or body "messages" (VList []) = VList (earlier ++ [VDict latest]) ->
    get_or latest "content" (VStr "") = VStr text ->
    is_location_query unicode_lower (VStr text) = Ok false ->
    passes_through unicode_lower str_other repeat_error requests_post valves body user
| Backend_no_result (earlier : list pyval) (latest : dict) (text : string) (v : pyval) :
    get_or body "messages" (VList []) = VList (earlier ++ [VDict latest]) ->
    get_or latest "content" (VStr "") = VStr text ->
    fst (call_maps_backend str_other repeat_error requests_post valves (VStr text) []) = Ok v ->
    truthy v = false ->
    passes_through unicode_lower str_other repeat_error requests_post valves body user
| Backend_unreachable (earlier : list pyval) (latest : dict) (text : string) (e : exn) :
    get_or body "messages" (VList []) = VList (earlier ++ [VDict latest]) ->
    get_or latest "content" (VStr "") = VStr text ->
    requests_post (search_request valves (VStr text)) = PostRaises e ->
    passes_through unicode_lower str_other repeat_error requests_post valves body user
| Backend_error_status (earlier : list pyval) (latest : dict) (text : string)
    (status : Z) (json : result pyval) :
    get_or body "messages" (VList []) = VList (earlier ++ [VDict latest]) ->
    get_or latest "content" (VStr "") = VStr text ->
    requests_post (search_request valves (VStr text)) = Response status json ->
    status <> 200%Z ->
    passes_through unicode_lower str_other repeat_error requests_post valves body user.

(** A result that is not the exception [inlet] raises for the turn limit. *)
Definition no_exception {A : Type} (r : result A) : Prop :=
  forall msg, r <> Raise (Exception msg).

Definition io_no_exception {A : Type} (m : IO A) : Prop :=
  forall t, no_exception (fst (m t)).

(** Concrete inputs on which the statements are exercised. *)
Module Sample.

(** An interpreter for text whose code points outside ASCII have no
    upper case, for fields that are strings, integers, booleans or
    [None], with a 64-bit index and room for 2^32 characters. *)
Definition unicode_lower (whole : string) (i : nat) : string :=
  PyStr.first_codepoint (string_drop i whole).
Definition str_other (v : pyval) : string := "".
Definition repeat_error (n : Z) : option exn :=
  if ((n <? - 2 ^ 63) || (2 ^ 63 <=? n))%Z then Some OverflowError
  else if (2 ^ 32 <? n)%Z then Some MemoryError
  else None.

Definition user_message (text : string) : pyval :=
  VDict [("role", VStr "user"); ("content", VStr text)].

Definition assistant_message (text : string) : pyval :=
  VDict [("role", VStr "assistant"); ("content", VStr text)].

(** A request body of one user message. *)
Definition body_of (text : string) : dict :=
  [("model", VStr "llama3"); ("messages", VList [user_message text])].

(** A conversation of nine messages that ends with an assistant reply. *)
Definition long_body : dict :=
  [("model", VStr "llama3");
   ("messages",
    VList [ user_message "hi"; assistant_message "hello";
            user_message "find a bank"; assistant_message "ok";
            user_message "where"; assistant_message "there";
            user_message "near"; assistant_message "yes";
            assistant_message "anything else?" ])].

Definition admin : dict := [("id", VStr "1"); ("role", VStr "admin")].

Definition opted_out : dict :=
  [("role", VStr "user");
   ("valves", VObj {| UserValves.max_turns := Some 4%Z;
                      UserValves.enable_maps_for_user := Some false |})].

Definition place (name address : string) : pyval :=
  VDict [("name", VStr name); ("formatted_address", VStr address)].

Definition free_park : dict :=
  [("name", VStr "Free Park"); ("formatted_address", VStr "1 Main St");
   ("price_level", VInt 0)].

Definition cafe_fields : dict :=
  [("name", VStr "Cafe A"); ("rating", VInt 4);
   ("formatted_address", VStr "2 Main St"); ("price_level", VInt 2);
   ("website", VStr "https://cafe.example");
   ("opening_hours", VDict [("open_now", VBool false)])].

Definition cafe : pyval := VDict cafe_fields.

Definition seven_places : list pyval :=
  [ place "A" "1 St"; place "B" "2 St"; cafe; place "D" "4 St";
    place "E" "5 St"; place "F" "6 St"; place "G" "7 St" ].

Definition search_data : dict :=
  [("places", VList seven_places); ("map_url", VStr "https://maps.example/m");
   ("directions_url", VStr "https://maps.example/d")].

Definition search_ok : dict :=
  [("success", VBool true); ("data", VDict search_data)].

(** Backends: one that answers every request the same way. *)
Definition answers (o : http_outcome) : request -> http_outcome := fun _ => o.

Definition backend_ok : request -> http_outcome :=
  answers (Response 200 (Ok (VDict search_ok))).

Definition backend_unsuccessful : request -> http_outcome :=
  answers (Response 200 (Ok (VDict [("success", VBool false)]))).

Definition backend_down : request -> http_outcome := answers (PostRaises RequestException).

Definition backend_500 : request -> http_outcome :=
  answers (Response 500 (Ok (VDict [("success", VBool false)]))).

Definition address_rating : string := "Address: 123 Main St, Rating 4.5".

Definition openai_response (text : string) : dict :=
  [("id", VStr "r1");
   ("choices", VList [VDict [("index", VInt 0);
                             ("message", VDict [("role", VStr "assistant");
                                                ("content", VStr text)])]])].

Definition message_response (text : string) : dict :=
  [("message", VDict [("role", VStr "assistant"); ("content", VStr text)]);
   ("done", VBool true)].

(** The run of the pre-call hook on ["find cafe"] against [backend_ok]. *)
Definition run_find_cafe : result dict * trace :=
  inlet unicode_lower str_other repeat_error backend_ok Valves.default (body_of "find cafe") None [].

Definition body_after (run : result dict * trace) : dict :=
  match fst run with
  | Ok body => body
  | Raise _ => []
  end.

(** The context built from the raw JSON of [backend_unsuccessful]. *)
Definition unsuccessful_context : string :=
  match create_maps_context str_other (VDict [("success", VBool false)]) (VStr "find pizza") with
  | Ok context => context
  | Raise _ => ""
  end.

End Sample.

(** ** Further notions and inputs *)

(** The literals [enhance_maps_response] looks for. *)
Definition enhance_triggers : list string :=
  [ "Google Maps"; "Maps"; "Lokasi"; "Location"; "Address:"; "Alamat:";
    "Rating"; Glyph.star; "Direction"; "Petunjuk"; "Arah" ].

Definition is_str (v : pyval) : bool :=
  match v with
  | VStr _ => true
  | _ => false
  end.

(** A value the loop of [call_maps_backend] cannot format: not an object,
    or an object without a name or without a formatted address. *)
Definition lacks_required (place : pyval) : bool :=
  match place with
  | VDict d => negb (field_present d Name && field_present d Address)
  | _ => true
  end.

(** Inputs at the edges. *)
Module Edge.

(** A response whose first choice has no message, beside a top-level message. *)
Definition response_without_message : dict :=
  [("choices", VList [VDict [("index", VInt 0)]]);
   ("message", VDict [("role", VStr "assistant"); ("content", VStr "Address: 1 Main St")])].

(** Content given as a list of parts. *)
Definition parts : pyval :=
  VList [VDict [("type", VStr "text"); ("text", VStr "find a bank")]].

Definition message_with_parts : dict := [("role", VStr "user"); ("content", parts)].

Definition response_with_parts : dict :=
  [("message", VDict [("role", VStr "assistant"); ("content", parts)])].

Definition body_with_parts : dict :=
  [("model", VStr "llama3"); ("messages", VList [VDict message_with_parts])].

Definition nameless : pyval := VDict [("formatted_address", VStr "3 St")].

Definition places_with_nameless : list pyval :=
  [Sample.place "A" "1 St"; Sample.place "B" "2 St"; nameless].

Definition data_with_nameless : dict := [("places", VList places_with_nameless)].

Definition parsed_with_nameless : dict :=
  [("success", VBool true); ("data", VDict data_with_nameless)].

Definition backend_with_nameless : request -> http_outcome :=
  Sample.answers (Response 200 (Ok (VDict parsed_with_nameless))).

(** Six places, the sixth of them [null]; no map links. *)
Definition six_places : list pyval :=
  [ Sample.place "A" "1 St"; Sample.place "B" "2 St"; Sample.cafe;
    Sample.place "D" "4 St"; Sample.place "E" "5 St"; VNone ].

Definition data_six : dict := [("places", VList six_places)].

Definition parsed_six : dict := [("success", VBool true); ("data", VDict data_six)].

Definition backend_six : request -> http_outcome :=
  Sample.answers (Response 200 (Ok (VDict parsed_six))).

(** Three places, the second with a price level of 2^63. *)
Definition overpriced : dict :=
  [("name", VStr "B"); ("formatted_address", VStr "2 St");
   ("price_level", VInt (2 ^ 63))].

Definition places_with_overpriced : list pyval :=
  [Sample.place "A" "1 St"; VDict overpriced; Sample.place "C" "3 St"].

Definition data_with_overpriced : dict := [("places", VList places_with_overpriced)].

Definition parsed_with_overpriced : dict :=
  [("success", VBool true); ("data", VDict data_with_overpriced)].

Definition backend_with_overpriced : request -> http_outcome :=
  Sample.answers (Response 200 (Ok (VDict parsed_with_overpriced))).

(** An answer whose JSON is a list. *)
Definition backend_list : request -> http_outcome :=
  Sample.answers (Response 200 (Ok (VList [VInt 1]))).

Definition pending : dict := [("id", VStr "2"); ("role", VStr "pending")].

(** A conversation of exactly four messages. *)
Definition four_messages : list pyval :=
  [ Sample.user_message "hi"; Sample.assistant_message "hello";
    Sample.user_message "thanks"; Sample.assistant_message "welcome" ].

Definition body_of_four : dict := [("messages", VList four_messages)].

(** An unsuccessful answer that carries a listing of its own. *)
Definition bad_listing : dict :=
  [("success", VBool false); ("formatted_places", VList [VInt 1])].

Definition backend_bad_listing : request -> http_outcome :=
  Sample.answers (Response 200 (Ok (VDict bad_listing))).

(** What the backend client and the context builder give for ["find cafe"]
    against [Sample.backend_ok]. *)
Definition cafe_result : pyval :=
  match fst (call_maps_backend Sample.str_other Sample.repeat_error Sample.backend_ok Valves.default
               (VStr "find cafe") []) with
  | Ok v => v
  | Raise _ => VNone
  end.

Definition cafe_context : string :=
  match create_maps_context Sample.str_other cafe_result (VStr "find cafe") with
  | Ok context => context
  | Raise _ => ""
  end.

End Edge.

(** ** Strings: search and case *)

Lemma startswith_app (p r : string) : PyStr.startswith p (p ++ r) = true.
Proof.
  induction p as [|a p IH]; simpl.
  - reflexivity.
  - rewrite Ascii.eqb_refl. exact IH.
Qed.

Lemma startswith_inv (p s : string) :
  PyStr.startswith p s = true -> exists r, s = p ++ r.
Proof.
  revert s. induction p as [|a p IH]; intros s H.
  - exists s. reflexivity.
  - destruct s as [|b s]; simpl in H; [discriminate|].
    apply andb_true_iff in H. destruct H as [Hab Hps].
    apply Ascii.eqb_eq in Hab. subst b.
    destruct (IH s Hps) as [r ->]. exists r. reflexivity.
Qed.

Lemma contains_unfold (k s : string) :
  PyStr.contains k s
  = PyStr.startswith k s
    || match s with
       | EmptyString => false
       | String _ s' => PyStr.contains k s'
       end.
Proof. destruct s; reflexivity. Qed.

Lemma contains_occurs (k s : string) :
  PyStr.contains k s = true <-> PyStr.Occurs k s.
Proof.
  split.
  - induction s as [|c s IH]; rewrite contains_unfold; intros H;
      apply orb_true_iff in H; destruct H as [H|H]; try discriminate.
    + destruct (startswith_inv _ _ H) as [r ->]. exists EmptyString, r. reflexivity.
    + destruct (startswith_inv _ _ H) as [r ->]. exists EmptyString, r. reflexivity.
    + destruct (IH H) as (pre & post & ->). exists (String c pre), post. reflexivity.
  - intros (pre & post & ->). induction pre as [|c pre IH]; rewrite contains_unfold.
    + simpl. rewrite startswith_app. reflexivity.
    + simpl. rewrite IH. apply orb_true_r.
Qed.

Lemma pystr_map_app (f : ascii -> ascii) (a b : string) :
  PyStr.map f (a ++ b) = PyStr.map f a ++ PyStr.map f b.
Proof. induction a as [|c a IH]; simpl; [reflexivity | now rewrite IH]. Qed.

Lemma pystr_map_eq_app (f : ascii -> ascii) (s a b : string) :
  PyStr.map f s = a ++ b ->
  exists a' b', s = a' ++ b' /\ PyStr.map f a' = a /\ PyStr.map f b' = b.
Proof.
  revert s. induction a as [|c a IH]; intros s H.
  - exists EmptyString, s. auto.
  - destruct s as [|d s]; simpl in H; [discriminate|].
    injection H as Hc Hs. destruct (IH s Hs) as (a' & b' & -> & Ha & Hb).
    exists (String d a'), b'. simpl. now rewrite Hc, Ha, Hb.
Qed.

Lemma keywords_lower_case (k : string) :
  In k location_keywords -> PyStr.lower_ascii k = k.
Proof.
  assert (H : List.forallb (fun k => PyStr.lower_ascii k =? k) location_keywords = true)
    by (vm_compute; reflexivity).
  rewrite forallb_forall in H. intros Hk. apply String.eqb_eq. exact (H k Hk).
Qed.

(** On lower-cased ASCII text, a keyword occurs exactly when a stretch of
    the original text is the keyword up to case. *)
Lemma occurs_lower_ascii (k m : string) :
  PyStr.lower_ascii k = k ->
  PyStr.Occurs k (PyStr.lower_ascii m) <-> PyStr.OccursIgnoringCase k m.
Proof.
  intros Hk. unfold PyStr.Occurs, PyStr.OccursIgnoringCase, PyStr.same_ignoring_case,
    PyStr.lower_ascii in *. split.
  - intros (pre & post & H).
    destruct (pystr_map_eq_app _ _ _ _ H) as (pre' & rest & -> & _ & Hrest).
    destruct (pystr_map_eq_app _ _ _ _ Hrest) as (mid & post' & -> & Hmid & _).
    exists pre', mid, post'. split; [reflexivity | congruence].
  - intros (pre & mid & post & -> & Hmid).
    exists (PyStr.map PyStr.lower_char pre), (PyStr.map PyStr.lower_char post).
    rewrite !pystr_map_app. congruence.
Qed.

Lemma lower_char_ascii (c : ascii) :
  PyStr.is_ascii_char (PyStr.lower_char c) = PyStr.is_ascii_char c.
Proof.
  destruct c as [b0 b1 b2 b3 b4 b5 b6 b7].
  destruct b0, b1, b2, b3, b4, b5, b6, b7; reflexivity.
Qed.

Lemma lower_char_outside_ascii (c : ascii) :
  PyStr.is_ascii_char c = false -> PyStr.lower_char c = c.
Proof.
  destruct c as [b0 b1 b2 b3 b4 b5 b6 b7].
  destruct b0, b1, b2, b3, b4, b5, b6, b7; try reflexivity; discriminate.
Qed.

Lemma contains_cons (k : string) (c : ascii) (s : string) :
  PyStr.contains k s = true -> PyStr.contains k (String c s) = true.
Proof. intros H. rewrite contains_unfold, H. apply orb_true_r. Qed.

Lemma contains_app_r (k u s : string) :
  PyStr.contains k s = true -> PyStr.contains k (u ++ s) = true.
Proof. intros H. induction u as [|c u IH]; simpl append; [exact H | now apply contains_cons]. Qed.

(** An occurrence of ASCII text does not start inside text without ASCII. *)
Lemma startswith_ascii_free (k u s : string) (a : ascii) :
  PyStr.is_ascii_char a = true -> u <> "" -> ascii_free u = true ->
  PyStr.startswith (String a k) (u ++ s) = false.
Proof.
  intros Ha Hu Hfree. destruct u as [|c u]; [contradiction|].
  unfold ascii_free in Hfree. cbn [PyStr.forallb] in Hfree.
  apply andb_true_iff in Hfree. destruct Hfree as [Hc _].
  cbn [append PyStr.startswith].
  destruct (Ascii.eqb a c) eqn:E; [|reflexivity].
  apply Ascii.eqb_eq in E. subst c. rewrite Ha in Hc. discriminate.
Qed.

Lemma contains_ascii_free (k u s : string) (a : ascii) :
  PyStr.is_ascii_char a = true -> ascii_free u = true ->
  PyStr.contains (String a k) (u ++ s) = true -> PyStr.contains (String a k) s = true.
Proof.
  intros Ha. induction u as [|c u IH]; intros Hfree H; [exact H|].
  pose proof Hfree as Hall.
  unfold ascii_free in Hfree. cbn [PyStr.forallb] in Hfree.
  apply andb_true_iff in Hfree. destruct Hfree as [Hc Hfree].
  cbn [append] in H. rewrite contains_unfold in H. apply orb_true_iff in H.
  destruct H as [H|H]; [|now apply IH].
  change (String c (u ++ s)) with (String c u ++ s) in H.
  rewrite (startswith_ascii_free k (String c u) s a Ha) in H; try discriminate.
  exact Hall.
Qed.

Section Classifier.

Variable unicode_lower : string -> nat -> string.

Lemma is_location_query_eq (m : string) :
  is_location_query unicode_lower (VStr m)
  = Ok (existsb (fun keyword => PyStr.contains keyword (lower unicode_lower m))
          location_keywords).
Proof. reflexivity. Qed.

Lemma some_keyword_occurs (text : string) :
  existsb (fun keyword => PyStr.contains keyword text) location_keywords = true
  <-> exists k, In k location_keywords /\ PyStr.Occurs k text.
Proof.
  rewrite existsb_exists. split; intros (k & Hin & Hk); exists k; split; auto;
    now apply contains_occurs.
Qed.

Lemma lower_from_ascii_head (whole : string) (i : nat) (inside : bool) (c : ascii)
    (r : string) :
  PyStr.is_ascii_char c = true ->
  lower_from unicode_lower whole i inside (String c r)
  = String (PyStr.lower_char c) (lower_from unicode_lower whole (S i) false r).
Proof. intros H. simpl. now rewrite H. Qed.

(** ASCII text found in the bytewise lower-casing is found in Python's. *)
Lemma startswith_lower_from (k : string) :
  PyStr.is_ascii k = true ->
  forall whole i inside s,
    PyStr.startswith k (PyStr.lower_ascii s) = true ->
    PyStr.startswith k (lower_from unicode_lower whole i inside s) = true.
Proof.
  induction k as [|a k IH]; intros Hk whole i inside s H; [reflexivity|].
  simpl in Hk. apply andb_true_iff in Hk. destruct Hk as [Ha Hk].
  destruct s as [|c r]; [discriminate|]. simpl in H.
  apply andb_true_iff in H. destruct H as [Hac Hr].
  apply Ascii.eqb_eq in Hac.
  assert (Hc : PyStr.is_ascii_char c = true) by (rewrite <- lower_char_ascii, <- Hac; exact Ha).
  rewrite lower_from_ascii_head by exact Hc. simpl.
  rewrite Hac, Ascii.eqb_refl. simpl. now apply IH.
Qed.

Lemma contains_lower_from (k : string) :
  PyStr.is_ascii k = true ->
  forall s whole i inside,
    PyStr.contains k (PyStr.lower_ascii s) = true ->
    PyStr.contains k (lower_from unicode_lower whole i inside s) = true.
Proof.
  intros Hk. induction s as [|c r IH]; intros whole i inside H; [exact H|].
  change (PyStr.lower_ascii (String c r))
    with (String (PyStr.lower_char c) (PyStr.lower_ascii r)) in H.
  rewrite contains_unfold in H. apply orb_true_iff in H. destruct H as [H|H].
  - rewrite contains_unfold.
    rewrite (startswith_lower_from k Hk whole i inside (String c r) H). reflexivity.
  - cbn [lower_from]. destruct (PyStr.is_ascii_char c).
    + apply contains_cons. now apply IH.
    + destruct (PyStr.is_continuation c).
      * destruct inside; [now apply IH | apply contains_cons; now apply IH].
      * apply contains_app_r. now apply IH.
Qed.

(** Where the code points outside ASCII lower-case to text outside ASCII,
    ASCII text found in Python's lower-casing is found in the bytewise one. *)
Section OutsideAscii.

Variable whole : string.

Lemma lowers_well_tail (i : nat) (c : ascii) (r : string) :
  lowers_well unicode_lower whole i (String c r) -> lowers_well unicode_lower whole (S i) r.
Proof.
  intros H j c' Hget Ha Hc. specialize (H (S j) c' Hget Ha Hc).
  now rewrite Nat.add_succ_r in H.
Qed.

Lemma lowers_well_head (i : nat) (c : ascii) (r : string) :
  lowers_well unicode_lower whole i (String c r) ->
  PyStr.is_ascii_char c = false -> PyStr.is_continuation c = false ->
  unicode_lower whole i <> "" /\ ascii_free (unicode_lower whole i) = true.
Proof.
  intros H Ha Hc. specialize (H 0 c eq_refl Ha Hc). now rewrite Nat.add_0_r in H.
Qed.

Lemma startswith_lower_from_inv (k : string) :
  PyStr.is_ascii k = true ->
  forall i s,
    lowers_well unicode_lower whole i s ->
    PyStr.startswith k (lower_from unicode_lower whole i false s) = true ->
    PyStr.startswith k (PyStr.lower_ascii s) = true.
Proof.
  induction k as [|a k IH]; intros Hk i s Hs H; [reflexivity|].
  simpl in Hk. apply andb_true_iff in Hk. destruct Hk as [Ha Hk].
  destruct s as [|c r]; [discriminate|].
  cbn [lower_from] in H. destruct (PyStr.is_ascii_char c) eqn:Hc.
  - simpl in H |- *. apply andb_true_iff in H. destruct H as [Hac Hr].
    rewrite Hac. simpl. apply (IH Hk (S i) r); [now apply lowers_well_tail with c | exact Hr].
  - destruct (PyStr.is_continuation c) eqn:Hcont.
    + exfalso. simpl in H. apply andb_true_iff in H. destruct H as [Hac _].
      apply Ascii.eqb_eq in Hac. subst c. rewrite Ha in Hc. discriminate.
    + exfalso. destruct (lowers_well_head i c r Hs Hc Hcont) as [Hne Hfree].
      rewrite (startswith_ascii_free k _ _ a Ha Hne Hfree) in H. discriminate.
Qed.

Lemma contains_lower_from_inv (k : string) (a : ascii) :
  PyStr.is_ascii (String a k) = true ->
  forall s i inside,
    lowers_well unicode_lower whole i s ->
    PyStr.contains (String a k) (lower_from unicode_lower whole i inside s) = true ->
    PyStr.contains (String a k) (PyStr.lower_ascii s) = true.
Proof.
  intros Hk. pose proof Hk as Hak. simpl in Hak. apply andb_true_iff in Hak.
  destruct Hak as [Ha _].
  induction s as [|c r IH]; intros i inside Hs H; [exact H|].
  pose proof (lowers_well_tail i c r Hs) as Hr.
  change (PyStr.lower_ascii (String c r))
    with (String (PyStr.lower_char c) (PyStr.lower_ascii r)).
  cbn [lower_from] in H. destruct (PyStr.is_ascii_char c) eqn:Hc.
  - rewrite contains_unfold in H. apply orb_true_iff in H. destruct H as [H|H].
    + rewrite contains_unfold.
      rewrite <- (lower_from_ascii_head whole i false c r Hc) in H.
      pose proof (startswith_lower_from_inv _ Hk i (String c r) Hs H) as Hp.
      change (PyStr.lower_ascii (String c r))
        with (String (PyStr.lower_char c) (PyStr.lower_ascii r)) in Hp.
      rewrite Hp. reflexivity.
    + apply contains_cons. now apply (IH (S i) false).
  - destruct (PyStr.is_continuation c) eqn:Hcont.
    + destruct inside.
      * apply contains_cons. now apply (IH (S i) true).
      * rewrite contains_unfold in H. apply orb_true_iff in H. destruct H as [H|H].
        -- exfalso. simpl in H. apply andb_true_iff in H. destruct H as [Hac _].
           apply Ascii.eqb_eq in Hac. subst c. rewrite Ha in Hc. discriminate.
        -- apply contains_cons. now apply (IH (S i) false).
    + destruct (lowers_well_head i c r Hs Hc Hcont) as [_ Hfree].
      apply contains_cons. apply (IH (S i) true Hr).
      now apply contains_ascii_free with (u := unicode_lower whole i).
Qed.

End OutsideAscii.

Lemma keywords_ascii (k : string) :
  In k location_keywords -> PyStr.is_ascii k = true /\ k <> "".
Proof.
  assert (H : List.forallb (fun k => PyStr.is_ascii k && negb (k =? "")) location_keywords
              = true) by (vm_compute; reflexivity).
  rewrite forallb_forall in H. intros Hk. specialize (H k Hk).
  apply andb_true_iff in H. destruct H as [Ha Hne]. split; [exact Ha|].
  intros ->. discriminate.
Qed.

(** C4. The classifier answers [True] for every message a stretch of which
    is a keyword of the fixed list up to the case of its letters, and in
    general exactly when a keyword occurs in the lower-cased message
    ([False] when none does). Where the code points of the message
    outside ASCII lower-case to text outside ASCII (all text without a
    Kelvin sign or a dotted capital I), it answers [False] for every
    message no stretch of which is a keyword up to case: the test is one
    of substrings of the message, whatever else the message holds. *)
Theorem is_location_query_keywords (m : string) :
  ((exists k, In k location_keywords /\ PyStr.OccursIgnoringCase k m) ->
   is_location_query unicode_lower (VStr m) = Ok true)
  /\ ((exists k, In k location_keywords /\ PyStr.Occurs k (lower unicode_lower m)) ->
      is_location_query unicode_lower (VStr m) = Ok true)
  /\ ((forall k, In k location_keywords -> ~ PyStr.Occurs k (lower unicode_lower m)) ->
      is_location_query unicode_lower (VStr m) = Ok false)
  /\ (lowers_outside_ascii unicode_lower m ->
      (forall k, In k location_keywords -> ~ PyStr.OccursIgnoringCase k m) ->
      is_location_query unicode_lower (VStr m) = Ok false).
Proof.
  rewrite is_location_query_eq.
  assert (Hfalse : forall text,
             (forall k, In k location_keywords -> ~ PyStr.Occurs k text) ->
             existsb (fun keyword => PyStr.contains keyword text) location_keywords = false).
  { intros text Hnone.
    destruct (existsb _ location_keywords) eqn:E; [|reflexivity].
    apply some_keyword_occurs in E. destruct E as (k & Hin & Hk).
    exfalso. exact (Hnone k Hin Hk). }
  split; [|split; [|split]].
  - intros (k & Hin & Hk). f_equal. apply existsb_exists. exists k. split; [exact Hin|].
    apply contains_lower_from; [apply (keywords_ascii k Hin)|].
    apply contains_occurs. apply occurs_lower_ascii; auto using keywords_lower_case.
  - intros H. f_equal. now apply some_keyword_occurs.
  - intros H. f_equal. now apply Hfalse.
  - intros Hm Hnone. f_equal.
    destruct (existsb _ location_keywords) eqn:E; [|reflexivity].
    apply existsb_exists in E. destruct E as (k & Hin & Hk).
    exfalso. apply (Hnone k Hin).
    apply occurs_lower_ascii; [now apply keywords_lower_case|]. apply contains_occurs.
    destruct (keywords_ascii k Hin) as [Hascii Hne].
    destruct k as [|a k]; [contradiction|].
    apply (contains_lower_from_inv m k a Hascii m 0 false); [|exact Hk].
    intros j c Hget Ha Hc. exact (Hm j c Hget Ha Hc).
Qed.

End Classifier.

(** The classifier on messages with characters outside ASCII: one with
    "near" in it, one with "nearest" and "bank" in other case, and one
    without a keyword. *)
Lemma is_location_query_keywords_witness :
  is_location_query Sample.unicode_lower (VStr "café near me") = Ok true
  /\ is_location_query Sample.unicode_lower (VStr "WHERE IS THE NEAREST BANK? 🙂") = Ok true
  /\ is_location_query Sample.unicode_lower (VStr "Tell me a joke 🙂") = Ok false.
Proof.
  split; [|split].
  - apply (proj1 (is_location_query_keywords Sample.unicode_lower "café near me")).
    exists "near". split; [simpl; tauto|].
    exists "café ", "near", " me". split; reflexivity.
  - apply (proj1 (is_location_query_keywords Sample.unicode_lower
                    "WHERE IS THE NEAREST BANK? 🙂")).
    exists "bank". split; [simpl; tauto|].
    exists "WHERE IS THE NEAREST ", "BANK", "? 🙂". split; reflexivity.
  - apply (proj2 (proj2 (proj2 (is_location_query_keywords Sample.unicode_lower
                                  "Tell me a joke 🙂")))).
    + intros i c Hget Ha Hc.
      do 19 (destruct i as [|i];
             [cbn in Hget; injection Hget as <-;
              first [ discriminate Ha | discriminate Hc
                    | split; [discriminate | reflexivity] ]
             |]).
      discriminate Hget.
    + intros k Hin Hocc.
      apply occurs_lower_ascii in Hocc; [|now apply keywords_lower_case].
      apply contains_occurs in Hocc.
      assert (H : existsb (fun keyword =>
                    PyStr.contains keyword (PyStr.lower_ascii "Tell me a joke 🙂"))
                    location_keywords = false) by (vm_compute; reflexivity).
      assert (H' : existsb (fun keyword =>
                    PyStr.contains keyword (PyStr.lower_ascii "Tell me a joke 🙂"))
                    location_keywords = true)
        by (apply existsb_exists; exists k; auto).
      congruence.
Defined.

(** ** Dictionaries *)

Lemma dict_get_set_same (d : dict) (k : string) (v : pyval) :
  dict_get (dict_set d k v) k = Some v.
Proof.
  induction d as [|[k' v'] d IH]; simpl.
  - now rewrite String.eqb_refl.
  - destruct (k' =? k) eqn:E; simpl; rewrite E; [reflexivity | exact IH].
Qed.

Lemma dict_get_set_other (d : dict) (k k0 : string) (v : pyval) :
  k0 <> k -> dict_get (dict_set d k v) k0 = dict_get d k0.
Proof.
  intros Hne. induction d as [|[k' v'] d IH]; simpl.
  - destruct (k =? k0) eqn:E; [apply String.eqb_eq in E; congruence | reflexivity].
  - destruct (k' =? k) eqn:E; simpl.
    + apply String.eqb_eq in E. subst k'.
      destruct (k =? k0) eqn:E'; [apply String.eqb_eq in E'; congruence | reflexivity].
    + destruct (k' =? k0); [reflexivity | exact IH].
Qed.

Lemma get_or_some (d : dict) (k : string) (default v : pyval) :
  dict_get d k = Some v -> get_or d k default = v.
Proof. unfold get_or. now intros ->. Qed.

(** A value found truthy under [d.get(k)] is the value of [d[k]]. *)
Lemma truthy_get_or (d : dict) (k : string) :
  truthy (get_or d k VNone) = true -> dict_get d k = Some (get_or d k VNone).
Proof. unfold get_or. destruct (dict_get d k); [reflexivity | discriminate]. Qed.

(** ** The response enhancer and the post-call hook *)

Lemma enhance_address_rating :
  enhance_maps_response Sample.address_rating
  = Glyph.pin ++ " Address: 123 Main St, " ++ Glyph.star ++ " Rating 4.5".
Proof. vm_compute. reflexivity. Qed.

Lemma outlet_choices_shape (body : dict) (user : option dict) (first : dict)
    (others : list pyval) (m : dict) (text : string) :
  text <> "" ->
  dict_get body "choices" = Some (VList (VDict first :: others)) ->
  dict_get first "message" = Some (VDict m) ->
  dict_get m "content" = Some (VStr text) ->
  outlet body user
  = Ok (dict_set body "choices"
          (VList (VDict (dict_set first "message"
                           (VDict (dict_set m "content"
                                     (VStr (enhance_maps_response text)))))
                  :: others))).
Proof.
  intros Htext Hc Hm Ht. unfold outlet, has_choices. rewrite Hc. simpl.
  rewrite Hc. simpl. rewrite (get_or_some _ _ _ _ Hm). simpl.
  rewrite (get_or_some _ _ _ _ Ht). simpl.
  destruct (text =? "") eqn:E; [apply String.eqb_eq in E; contradiction|]. simpl.
  unfold set_message_content. simpl. rewrite Hm. reflexivity.
Qed.

Lemma outlet_message_shape (body : dict) (user : option dict) (m : dict) (text : string) :
  text <> "" ->
  has_choices body = false ->
  dict_get body "message" = Some (VDict m) ->
  dict_get m "content" = Some (VStr text) ->
  outlet body user
  = Ok (dict_set body "message"
          (VDict (dict_set m "content" (VStr (enhance_maps_response text))))).
Proof.
  intros Htext Hc Hm Ht. unfold outlet, has_message. rewrite Hc, Hm. simpl.
  rewrite Hm. simpl. rewrite (get_or_some _ _ _ _ Ht). simpl.
  destruct (text =? "") eqn:E; [apply String.eqb_eq in E; contradiction|]. simpl.
  unfold set_message_content. simpl. rewrite Hm. reflexivity.
Qed.

(** C8, as stated, fails: for the response text
    ["Address: 123 Main St, Rating 4.5"] the post-call hook writes back a
    text with exactly one star glyph, so no star is duplicated before
    ["Rating"], and each glyph is separated from its keyword by a space. *)
Lemma outlet_address_rating_one_star :
  outlet (Sample.openai_response Sample.address_rating) None
  = Ok (Sample.openai_response "📍 Address: 123 Main St, ⭐ Rating 4.5")
  /\ count_occurrences Glyph.star "📍 Address: 123 Main St, ⭐ Rating 4.5" = 1
  /\ PyStr.contains (Glyph.star ++ "Rating") "📍 Address: 123 Main St, ⭐ Rating 4.5" = false
  /\ PyStr.contains (Glyph.pin ++ "Address:") "📍 Address: 123 Main St, ⭐ Rating 4.5" = false.
Proof. split; [|split; [|split]]; vm_compute; reflexivity. Qed.

(** C8, amended. For the response text ["Address: 123 Main St, Rating 4.5"]
    in either response shape, the post-call hook yields the map-pin glyph
    and a space before ["Address:"] and one star glyph and a space before
    ["Rating"], and writes the text back into the shape it was read from:
    under [choices[0].message.content] when [choices] is a non-empty list,
    under [message.content] otherwise. *)
Theorem outlet_address_rating (body : dict) (user : option dict) (m : dict) :
  dict_get m "content" = Some (VStr Sample.address_rating) ->
  (forall first others,
      dict_get body "choices" = Some (VList (VDict first :: others)) ->
      dict_get first "message" = Some (VDict m) ->
      outlet body user
      = Ok (dict_set body "choices"
              (VList (VDict (dict_set first "message"
                               (VDict (dict_set m "content"
                                  (VStr (Glyph.pin ++ " Address: 123 Main St, "
                                         ++ Glyph.star ++ " Rating 4.5")))))
                      :: others))))
  /\ (has_choices body = false ->
      dict_get body "message" = Some (VDict m) ->
      outlet body user
      = Ok (dict_set body "message"
              (VDict (dict_set m "content"
                        (VStr (Glyph.pin ++ " Address: 123 Main St, "
                               ++ Glyph.star ++ " Rating 4.5")))))).
Proof.
  intros Ht. rewrite <- enhance_address_rating. split.
  - intros first others Hc Hm. apply outlet_choices_shape; auto. discriminate.
  - intros Hc Hm. apply outlet_message_shape; auto. discriminate.
Qed.

(** The post-call hook on the text in both response shapes. *)
Lemma outlet_address_rating_witness :
  outlet (Sample.openai_response Sample.address_rating) None
  = Ok (Sample.openai_response "📍 Address: 123 Main St, ⭐ Rating 4.5")
  /\ outlet (Sample.message_response Sample.address_rating) None
     = Ok (Sample.message_response "📍 Address: 123 Main St, ⭐ Rating 4.5").
Proof.
  split.
  - apply (proj1 (outlet_address_rating
                    (Sample.openai_response Sample.address_rating) None
                    [("role", VStr "assistant"); ("content", VStr Sample.address_rating)]
                    eq_refl)
             [("index", VInt 0);
              ("message", VDict [("role", VStr "assistant");
                                 ("content", VStr Sample.address_rating)])]
             []); reflexivity.
  - apply (proj2 (outlet_address_rating
                    (Sample.message_response Sample.address_rating) None
                    [("role", VStr "assistant"); ("content", VStr Sample.address_rating)]
                    eq_refl)); reflexivity.
Defined.

(** C9. The enhancer is not idempotent: on ["Address: 123 Main St, Rating 4.5"]
    a second application changes the text again, and the glyphs multiply
    (one star glyph after one application, two after two). *)
Theorem enhance_maps_response_not_idempotent :
  exists content,
    enhance_maps_response (enhance_maps_response content) <> enhance_maps_response content
    /\ count_occurrences Glyph.star (enhance_maps_response content) = 1
    /\ count_occurrences Glyph.star (enhance_maps_response (enhance_maps_response content)) = 2
    /\ enhance_maps_response (enhance_maps_response content)
       = "📍 📍 Address: 123 Main St, ⭐ Rating ⭐ Rating 4.5".
Proof.
  exists Sample.address_rating.
  assert (H2 : enhance_maps_response (enhance_maps_response Sample.address_rating)
               = "📍 📍 Address: 123 Main St, ⭐ Rating ⭐ Rating 4.5")
    by (vm_compute; reflexivity).
  split; [|split; [|split]].
  - rewrite H2, enhance_address_rating. intros H. vm_compute in H. discriminate H.
  - vm_compute. reflexivity.
  - vm_compute. reflexivity.
  - exact H2.
Qed.

(** ** The backend client *)

Lemma getitem_truthy (d : dict) (k : string) :
  truthy (get_or d k VNone) = true ->
  py_getitem (VDict d) k = Ok (get_or d k VNone).
Proof. intros H. simpl. now rewrite (truthy_get_or _ _ H). Qed.

Lemma getitem_not_none (d : dict) (k : string) :
  is_none (get_or d k VNone) = false ->
  py_getitem (VDict d) k = Ok (get_or d k VNone).
Proof.
  unfold get_or. simpl. destruct (dict_get d k); [reflexivity | discriminate].
Qed.

Lemma getitem_present (d : dict) (k : string) (v : pyval) :
  dict_get d k = Some v -> py_getitem (VDict d) k = Ok (get_or d k VNone).
Proof. intros H. simpl. unfold get_or. now rewrite H. Qed.

(** The block of the shown fields, built field by field as the loop body
    builds [info]. *)
Lemma block_step {A : Type} (text : A -> string) (shown : A -> bool) (f : A)
    (fs : list A) (acc : string) :
  fold_left append (List.map text (filter shown (f :: fs))) acc
  = fold_left append (List.map text (filter shown fs))
      (if shown f then acc ++ text f else acc).
Proof. simpl. destruct (shown f); reflexivity. Qed.

Lemma field_shown_present (d : dict) (f : field) :
  field_present d Name = true ->
  field_present d Address = true ->
  field_shown d f = true -> field_present d f = true.
Proof.
  intros Hn Ha. unfold field_shown, field_present in *.
  destruct f; simpl field_key in *; auto; intros H;
    try (apply andb_true_iff in H; destruct H as [H _]);
    now rewrite (truthy_get_or _ _ H).
Qed.

Section Backend.

Variable str_other : pyval -> string.
Variable repeat_error : Z -> option exn.
Variable requests_post : request -> http_outcome.

Lemma format_place_block (d : dict) :
  is_place_record repeat_error (VDict d) = true ->
  format_place str_other repeat_error (VDict d)
  = Ok (block_of (List.map (field_text str_other repeat_error d) (filter (field_shown d) block_fields))).
Proof.
  unfold is_place_record, field_present. simpl field_key.
  destruct (dict_get d "name") as [name|] eqn:Hn; [|discriminate].
  destruct (dict_get d "formatted_address") as [address|] eqn:Ha; [|discriminate].
  simpl andb. intros H. apply andb_true_iff in H. destruct H as [Hp Ho].
  unfold block_of, block_fields. rewrite !block_step.
  cbn [filter List.map fold_left field_shown field_text field_key append].
  unfold format_place.
  rewrite (getitem_present _ _ _ Hn), (getitem_present _ _ _ Ha).
  cbn [py_get bind].
  destruct (truthy (get_or d "rating" VNone)) eqn:Hr;
    [rewrite (getitem_truthy _ _ Hr)|]; cbn [bind].
  all: destruct (truthy (get_or d "price_level" VNone)) eqn:Hpl;
    [rewrite (getitem_truthy _ _ Hpl); cbn [bind];
     unfold is_count in Hp; unfold py_repeat;
     destruct (count_of (get_or d "price_level" VNone)) as [n|]; try discriminate;
     destruct (repeat_error n); try discriminate|]; cbn [bind].
  all: destruct (truthy (get_or d "website" VNone)) eqn:Hw;
    [rewrite (getitem_truthy _ _ Hw)|]; cbn [bind].
  all: destruct (truthy (get_or d "formatted_phone_number" VNone)) eqn:Hph;
    [rewrite (getitem_truthy _ _ Hph)|]; cbn [bind].
  all: destruct (truthy (get_or d "opening_hours" VNone)) eqn:Hoh;
    [rewrite (getitem_truthy _ _ Hoh);
     destruct (get_or d "opening_hours" VNone) as [| | | | | |h|]; try discriminate;
     cbn [py_get bind open_now_of];
     destruct (is_none (get_or h "open_now" VNone)) eqn:Hon;
     [destruct (get_or h "open_now" VNone); try discriminate
     |rewrite (getitem_not_none _ _ Hon);
      destruct (get_or h "open_now" VNone) eqn:Hv; try discriminate]
    |]; cbn [bind andb negb is_none]; try reflexivity.
Qed.

(** A record without a name, or without an address, gets no block: the
    subscript raises. *)
Lemma format_place_missing_key (d : dict) :
  dict_get d "name" = None \/ dict_get d "formatted_address" = None ->
  format_place str_other repeat_error (VDict d) = Raise KeyError.
Proof.
  intros [H|H]; unfold format_place; cbn [py_getitem py_get bind].
  - rewrite H. reflexivity.
  - destruct (dict_get d "name"); [|reflexivity]. cbn [bind].
    destruct (truthy (get_or d "rating" VNone)) eqn:Hr.
    + rewrite (truthy_get_or _ _ Hr). cbn [bind]. rewrite H. reflexivity.
    + cbn [bind]. rewrite H. reflexivity.
Qed.

(** A record whose price level is a count the glyph cannot be repeated to
    gets no block: the repetition raises. *)
Lemma format_place_unrepeatable (d : dict) (n : Z) (e : exn) :
  dict_get d "name" <> None ->
  dict_get d "formatted_address" <> None ->
  dict_get d "price_level" = Some (VInt n) ->
  n <> 0%Z ->
  repeat_error n = Some e ->
  format_place str_other repeat_error (VDict d) = Raise e.
Proof.
  intros Hn Ha Hp Hz He. unfold format_place. cbn [py_getitem py_get bind].
  destruct (dict_get d "name"); [|contradiction].
  destruct (dict_get d "formatted_address"); [|contradiction]. cbn [bind].
  assert (Hpl : get_or d "price_level" VNone = VInt n) by (unfold get_or; now rewrite Hp).
  assert (Ht : truthy (VInt n) = true).
  { simpl. destruct (n =? 0)%Z eqn:E; [apply Z.eqb_eq in E; contradiction | reflexivity]. }
  destruct (truthy (get_or d "rating" VNone)) eqn:Hr;
    [rewrite (truthy_get_or _ _ Hr)|]; cbn [bind];
    rewrite Hpl, Ht, Hp; cbn [bind]; unfold py_repeat; cbn [count_of]; rewrite He;
    reflexivity.
Qed.

Lemma format_places_records (places : list pyval) :
  Forall (fun place => is_place_record repeat_error place = true) places ->
  exists blocks,
    format_places str_other repeat_error places = Ok (List.map VStr blocks)
    /\ Forall2 (fun place block => format_place str_other repeat_error place = Ok block) places blocks.
Proof.
  induction 1 as [|place places Hp _ IH].
  - exists []. split; constructor.
  - destruct IH as (blocks & Hfs & Hall).
    destruct place as [| | | | | |d|]; try discriminate.
    pose proof (format_place_block d Hp) as Hb.
    eexists (_ :: blocks). split.
    + simpl format_places. rewrite Hb, Hfs. reflexivity.
    + constructor; [exact Hb | exact Hall].
Qed.

(** The answer of [call_maps_backend] to a 200 response that carries places. *)
Lemma extract_places_formatted (parsed data : dict) (places : list pyval) (blocks : list string) :
  truthy (get_or parsed "success" VNone) = true ->
  dict_get parsed "data" = Some (VDict data) ->
  dict_get data "places" = Some (VList places) ->
  places <> [] ->
  format_places str_other repeat_error (firstn 5 places) = Ok (List.map VStr blocks) ->
  extract_places str_other repeat_error (VDict parsed)
  = Ok (formatted_result blocks data (VDict parsed)).
Proof.
  intros Hs Hd Hp Hne Hf. unfold extract_places. cbn [py_get bind].
  rewrite Hs. cbn [py_in bind]. rewrite Hd. cbn [py_getitem bind]. rewrite Hd.
  cbn [py_get bind]. rewrite (get_or_some _ _ _ _ Hp).
  destruct places as [|p ps]; [contradiction|].
  cbn [truthy py_first5 bind]. rewrite Hf. reflexivity.
Qed.

Lemma call_maps_backend_ok (valves : Valves.t) (query v : pyval) (t : trace) :
  fst (call_maps_backend_try str_other repeat_error requests_post valves query t) = Ok v ->
  call_maps_backend str_other repeat_error requests_post valves query t
  = (Ok v, (t ++ [search_request valves query])%list).
Proof.
  unfold call_maps_backend, call_maps_backend_try.
  destruct (requests_post (search_request valves query)) as [e|status json]; simpl.
  - discriminate.
  - destruct (status =? 200)%Z; simpl.
    + intros ->. reflexivity.
    + intros H. injection H as <-. reflexivity.
Qed.

Lemma call_maps_backend_caught (valves : Valves.t) (query : pyval) (t : trace) (e : exn) :
  fst (call_maps_backend_try str_other repeat_error requests_post valves query t) = Raise e ->
  call_maps_backend str_other repeat_error requests_post valves query t
  = (Ok VNone, (t ++ [search_request valves query])%list).
Proof.
  unfold call_maps_backend, call_maps_backend_try.
  destruct (requests_post (search_request valves query)) as [e'|status json]; simpl.
  - intros _. destruct e'; reflexivity.
  - destruct (status =? 200)%Z; simpl.
    + intros ->. destruct e; reflexivity.
    + discriminate.
Qed.

Lemma call_maps_backend_returns (valves : Valves.t) (query : pyval) (t : trace) :
  exists v, call_maps_backend str_other repeat_error requests_post valves query t
            = (Ok v, (t ++ [search_request valves query])%list).
Proof.
  destruct (fst (call_maps_backend_try str_other repeat_error requests_post valves query t)) as [v|e] eqn:E.
  - exists v. now apply call_maps_backend_ok.
  - exists VNone. now apply call_maps_backend_caught with e.
Qed.

(** C3. The backend client always returns, having sent its one request:
    it returns [None] when the request raises (a network failure), when
    the status is not 200, when [response.json()] raises, and whenever
    its [try] block raises anything at all. *)
Theorem call_maps_backend_never_raises (valves : Valves.t) (query : pyval) (t : trace) :
  (exists v, call_maps_backend str_other repeat_error requests_post valves query t
             = (Ok v, (t ++ [search_request valves query])%list))
  /\ (forall e, requests_post (search_request valves query) = PostRaises e ->
                call_maps_backend str_other repeat_error requests_post valves query t
                = (Ok VNone, (t ++ [search_request valves query])%list))
  /\ (forall status json,
         requests_post (search_request valves query) = Response status json ->
         status <> 200%Z ->
         call_maps_backend str_other repeat_error requests_post valves query t
         = (Ok VNone, (t ++ [search_request valves query])%list))
  /\ (forall e, requests_post (search_request valves query) = Response 200 (Raise e) ->
                call_maps_backend str_other repeat_error requests_post valves query t
                = (Ok VNone, (t ++ [search_request valves query])%list))
  /\ (forall e, fst (call_maps_backend_try str_other repeat_error requests_post valves query t) = Raise e ->
                call_maps_backend str_other repeat_error requests_post valves query t
                = (Ok VNone, (t ++ [search_request valves query])%list)).
Proof.
  split; [|split; [|split; [|split]]].
  - apply call_maps_backend_returns.
  - intros e He. apply call_maps_backend_caught with e.
    unfold call_maps_backend_try. now rewrite He.
  - intros status json Hr Hs. apply call_maps_backend_ok.
    unfold call_maps_backend_try. rewrite Hr.
    destruct (status =? 200)%Z eqn:E; [apply Z.eqb_eq in E; contradiction | reflexivity].
  - intros e He. apply call_maps_backend_caught with e.
    unfold call_maps_backend_try. now rewrite He.
  - intros e. apply call_maps_backend_caught.
Qed.

(** C5. For a 200 response whose JSON has a truthy [success] and
    [data.places] a list of more than five places (seven, say), the first
    five of them place records, the backend client returns exactly five
    formatted blocks: the blocks of the first five places, in their
    order. (A place record has a name, a formatted address, and a price
    level, if any, that the glyph can be repeated to.) *)
Theorem call_maps_backend_first_five (valves : Valves.t) (query : pyval) (t : trace)
    (parsed data : dict) (places : list pyval) :
  requests_post (search_request valves query) = Response 200 (Ok (VDict parsed)) ->
  truthy (get_or parsed "success" VNone) = true ->
  dict_get parsed "data" = Some (VDict data) ->
  dict_get data "places" = Some (VList places) ->
  5 < List.length places ->
  Forall (fun place => is_place_record repeat_error place = true) (firstn 5 places) ->
  exists blocks,
    call_maps_backend str_other repeat_error requests_post valves query t
    = (Ok (formatted_result blocks data (VDict parsed)),
       (t ++ [search_request valves query])%list)
    /\ List.length blocks = 5
    /\ Forall2 (fun place block => format_place str_other repeat_error place = Ok block)
         (firstn 5 places) blocks.
Proof.
  intros Hr Hs Hd Hp Hlen Hfirst.
  destruct (format_places_records _ Hfirst) as (blocks & Hf & Hall).
  exists blocks. split; [|split].
  - apply call_maps_backend_ok. unfold call_maps_backend_try. rewrite Hr. simpl.
    apply extract_places_formatted with places; auto.
    intros ->. simpl in Hlen. lia.
  - rewrite <- (Forall2_length Hall). rewrite length_firstn. lia.
  - exact Hall.
Qed.

(** C6, amended. For every place record (an object with a name and a
    formatted address, a price level, if any, that is an integer the
    glyph can be repeated to, and an object [opening_hours] if any) a
    block is produced, made of the texts of
    the shown fields in the order name, rating, address, price level,
    website, phone, status. The name and the address are always shown;
    the rating, the price level, the website and the phone are shown
    exactly when the record's value is truthy (present and not null,
    zero, false or empty); the status is shown exactly when
    [opening_hours] is truthy and its [open_now] is not null. A shown
    field is present in the record, and the block is produced whichever
    of the other fields are absent. *)
Theorem format_place_fields (d : dict) :
  is_place_record repeat_error (VDict d) = true ->
  format_place str_other repeat_error (VDict d)
  = Ok (block_of (List.map (field_text str_other repeat_error d) (filter (field_shown d) block_fields)))
  /\ (forall f, In f (filter (field_shown d) block_fields) <-> field_shown d f = true)
  /\ (forall f, field_shown d f = true -> field_present d f = true)
  /\ field_shown d Name = true
  /\ field_shown d Address = true
  /\ (forall f, f = Rating \/ f = PriceLevel \/ f = Website \/ f = Phone ->
                field_shown d f = truthy (get_or d (field_key f) VNone))
  /\ field_shown d Status
     = truthy (get_or d "opening_hours" VNone)
       && negb (is_none (open_now_of (get_or d "opening_hours" VNone))).
Proof.
  intros Hrec. split; [now apply format_place_block|].
  split; [|split; [|split; [|split; [|split]]]]; try reflexivity.
  - intros f. rewrite filter_In. split; [tauto|]. intros H. split; [|exact H].
    destruct f; simpl; tauto.
  - unfold is_place_record in Hrec.
    apply andb_true_iff in Hrec. destruct Hrec as [Hrec _].
    apply andb_true_iff in Hrec. destruct Hrec as [Hrec _].
    apply andb_true_iff in Hrec. destruct Hrec as [Hn Ha].
    intros f. now apply field_shown_present.
  - intros f [->|[->|[->| ->]]]; reflexivity.
Qed.

End Backend.

(** The backend client against a backend that is down and one that
    answers with status 500. *)
Lemma call_maps_backend_never_raises_witness :
  call_maps_backend Sample.str_other Sample.repeat_error Sample.backend_down Valves.default (VStr "find pizza") []
  = (Ok VNone, [search_request Valves.default (VStr "find pizza")])
  /\ call_maps_backend Sample.str_other Sample.repeat_error Sample.backend_500 Valves.default (VStr "find pizza") []
     = (Ok VNone, [search_request Valves.default (VStr "find pizza")]).
Proof.
  split.
  - apply (proj1 (proj2 (call_maps_backend_never_raises Sample.str_other Sample.repeat_error Sample.backend_down
                           Valves.default (VStr "find pizza") []))
             RequestException).
    reflexivity.
  - apply (proj1 (proj2 (proj2 (call_maps_backend_never_raises Sample.str_other Sample.repeat_error
                                  Sample.backend_500 Valves.default (VStr "find pizza") [])))
             500%Z (Ok (VDict [("success", VBool false)]))).
    + reflexivity.
    + discriminate.
Defined.

(** The backend client against a backend that answers with seven places. *)
Lemma call_maps_backend_first_five_witness :
  exists blocks,
    call_maps_backend Sample.str_other Sample.repeat_error Sample.backend_ok Valves.default (VStr "find cafe") []
    = (Ok (formatted_result blocks Sample.search_data (VDict Sample.search_ok)),
       [search_request Valves.default (VStr "find cafe")])
    /\ List.length blocks = 5
    /\ Forall2 (fun place block => format_place Sample.str_other Sample.repeat_error place = Ok block)
         (firstn 5 Sample.seven_places) blocks.
Proof.
  apply (call_maps_backend_first_five Sample.str_other Sample.repeat_error Sample.backend_ok Valves.default
           (VStr "find cafe") [] Sample.search_ok Sample.search_data Sample.seven_places).
  - reflexivity.
  - reflexivity.
  - reflexivity.
  - reflexivity.
  - simpl. lia.
  - simpl. repeat constructor.
Defined.

(** C6, as stated, fails: a record whose [price_level] is present with the
    value 0 gets a block without a price level. *)
Lemma format_place_omits_price_level_zero :
  field_present Sample.free_park PriceLevel = true
  /\ format_place Sample.str_other Sample.repeat_error (VDict Sample.free_park)
     = Ok (Glyph.pin ++ " **Free Park**" ++ PyStr.nl ++ "   " ++ Glyph.pin ++ " 1 Main St")
  /\ PyStr.contains "Price Level"
       (Glyph.pin ++ " **Free Park**" ++ PyStr.nl ++ "   " ++ Glyph.pin ++ " 1 Main St")
     = false.
Proof. split; [|split]; vm_compute; reflexivity. Qed.

(** The block of a record with every field but the phone. *)
Lemma format_place_fields_witness :
  format_place Sample.str_other Sample.repeat_error (VDict Sample.cafe_fields)
  = Ok (block_of (List.map (field_text Sample.str_other Sample.repeat_error Sample.cafe_fields)
                    [Name; Rating; Address; PriceLevel; Website; Status])).
Proof.
  exact (proj1 (format_place_fields Sample.str_other Sample.repeat_error Sample.cafe_fields eq_refl)).
Defined.

(** ** The pre-call hook *)

Create HintDb inlet.

Lemma no_exception_ok {A : Type} (a : A) : no_exception (Ok a).
Proof. intros msg. discriminate. Qed.

Lemma no_exception_bind {A B : Type} (m : result A) (k : A -> result B) :
  no_exception m -> (forall a, no_exception (k a)) -> no_exception (bind m k).
Proof.
  intros Hm Hk. destruct m as [a|e]; simpl; [apply Hk|].
  intros msg H. injection H as ->. now apply (Hm msg).
Qed.

Lemma no_exception_if {A : Type} (c : bool) (x y : result A) :
  no_exception x -> no_exception y -> no_exception (if c then x else y).
Proof. destruct c; auto. Qed.

Lemma py_len_no_exception (v : pyval) : no_exception (py_len v).
Proof. intros msg. destruct v; discriminate. Qed.

Lemma py_last_no_exception (v : pyval) : no_exception (py_last v).
Proof.
  intros msg. destruct v as [| | | |s|l| |]; simpl; try discriminate.
  - destruct (rev (PyStr.codepoints s)); discriminate.
  - destruct (rev l); discriminate.
Qed.

Lemma py_get_no_exception (v : pyval) (k : string) (default : pyval) :
  no_exception (py_get v k default).
Proof. intros msg. destruct v; discriminate. Qed.

Lemma prepend_no_exception (first messages : pyval) : no_exception (prepend first messages).
Proof. intros msg. destruct messages; discriminate. Qed.

Lemma is_location_query_no_exception (unicode_lower : string -> nat -> string)
    (message : pyval) :
  no_exception (is_location_query unicode_lower message).
Proof. intros msg. destruct message; discriminate. Qed.

Lemma all_strings_no_exception (l : list pyval) : no_exception (all_strings l).
Proof.
  induction l as [|x l IH]; simpl.
  - apply no_exception_ok.
  - destruct x; try (intros msg; discriminate).
    apply no_exception_bind; [exact IH | intros; apply no_exception_ok].
Qed.

Lemma py_join_no_exception (sep : string) (v : pyval) : no_exception (py_join sep v).
Proof.
  destruct v; simpl; try (intros msg; discriminate).
  apply no_exception_bind; [apply all_strings_no_exception | intros; apply no_exception_ok].
Qed.

Lemma create_maps_context_no_exception (str_other : pyval -> string) (maps_data query : pyval) :
  no_exception (create_maps_context str_other maps_data query).
Proof.
  unfold create_maps_context.
  repeat (apply no_exception_bind; [try apply py_get_no_exception | intros]).
  - apply no_exception_if; [apply py_join_no_exception | apply no_exception_ok].
  - apply no_exception_ok.
Qed.

Lemma io_no_exception_ret {A : Type} (a : A) : io_no_exception (io_ret a).
Proof. intros t msg. discriminate. Qed.

Lemma io_no_exception_lift {A : Type} (r : result A) :
  no_exception r -> io_no_exception (io_lift r).
Proof. intros H t. exact H. Qed.

Lemma io_no_exception_bind {A B : Type} (m : IO A) (k : A -> IO B) :
  io_no_exception m -> (forall a, io_no_exception (k a)) -> io_no_exception (io_bind m k).
Proof.
  intros Hm Hk t. unfold io_bind. specialize (Hm t).
  destruct (m t) as [[a|e] t']; simpl in *; [apply Hk|].
  intros msg H. injection H as ->. now apply (Hm msg).
Qed.

Lemma io_no_exception_if {A : Type} (c : bool) (x y : IO A) :
  io_no_exception x -> io_no_exception y -> io_no_exception (if c then x else y).
Proof. destruct c; auto. Qed.

Section PreCall.
Variable unicode_lower : string -> nat -> string.
Variable str_other : pyval -> string.
Variable repeat_error : Z -> option exn.
Variable requests_post : request -> http_outcome.

Lemma call_maps_backend_no_exception (valves : Valves.t) (query : pyval) :
  io_no_exception (call_maps_backend str_other repeat_error requests_post valves query).
Proof.
  intros t msg.
  destruct (call_maps_backend_returns str_other repeat_error requests_post valves query t) as [v ->].
  discriminate.
Qed.

#[local] Hint Resolve io_no_exception_ret io_no_exception_lift py_len_no_exception
  py_last_no_exception py_get_no_exception prepend_no_exception
  is_location_query_no_exception create_maps_context_no_exception
  call_maps_backend_no_exception no_exception_ok : inlet.

(** C10. With the user context absent the turn check does nothing, and
    the pre-call hook never raises the turn-limit exception, however
    many messages the body holds. *)
Theorem inlet_without_user_no_turn_limit (valves : Valves.t) (body : dict) (t : trace)
    (msg : string) :
  check_turn_limit valves body None = Ok tt
  /\ fst (inlet unicode_lower str_other repeat_error requests_post valves body None t)
     <> Raise (Exception msg).
Proof.
  split; [reflexivity|].
  revert t msg. change (io_no_exception (inlet unicode_lower str_other repeat_error requests_post valves body None)).
  unfold inlet. cbn [check_turn_limit].
  repeat first
    [ apply io_no_exception_bind; [auto with inlet | intros]
    | apply io_no_exception_if
    | solve [auto with inlet] ].
Qed.

Lemma call_maps_backend_any_trace (valves : Valves.t) (query : pyval) (t : trace) :
  fst (call_maps_backend str_other repeat_error requests_post valves query t)
  = fst (call_maps_backend str_other repeat_error requests_post valves query []).
Proof.
  unfold call_maps_backend, call_maps_backend_try.
  destruct (requests_post (search_request valves query)) as [e|status json].
  - destruct e; reflexivity.
  - destruct (status =? 200)%Z; [|reflexivity].
    destruct (bind json (extract_places str_other repeat_error)) as [v|e]; [reflexivity|].
    destruct e; reflexivity.
Qed.

Lemma truthy_user (u : dict) : u <> [] -> truthy (VDict u) = true.
Proof. destruct u; [contradiction | reflexivity]. Qed.

(** C1, amended. When the user context is a non-empty [dict] whose role
    (["admin"] when absent) is ["user"] or ["admin"], and the message
    count exceeds [min(user_max_turns, self.valves.max_turns)], with
    [user_max_turns] 4 unless the user's valves carry [max_turns] and
    the global default 8, the pre-call hook raises the exception that
    names the limit; no request is sent (the trace is unchanged), and
    the integration flags play no part. *)
Theorem inlet_turn_limit (valves : Valves.t) (body u : dict) (messages : list pyval)
    (t : trace) :
  u <> [] ->
  role_checked (get_or u "role" (VStr "admin")) = true ->
  get_or body "messages" (VList []) = VList messages ->
  (Z.of_nat (List.length messages) > effective_max_turns valves u)%Z ->
  inlet unicode_lower str_other repeat_error requests_post valves body (Some u) t
  = (Raise (Exception ("Conversation turn limit exceeded. Max turns: "
                       ++ PyStr.of_Z (effective_max_turns valves u))), t)
  /\ effective_max_turns valves u
     = Z.min (match attr_max_turns (get_or u "valves" VNone) with
              | Some n => n
              | None => 4%Z
              end)
             (Valves.max_turns valves)
  /\ Valves.max_turns Valves.default = 8%Z.
Proof.
  intros Hu Hrole Hm Hgt. split; [|split].
  - unfold inlet, io_bind, io_lift, check_turn_limit.
    rewrite (truthy_user u Hu), Hrole, Hm. cbn [andb py_len bind].
    fold (effective_max_turns valves u).
    destruct (Z.of_nat (List.length messages) >? effective_max_turns valves u)%Z eqn:E.
    + reflexivity.
    + rewrite Z.gtb_ltb, Z.ltb_ge in E. lia.
  - unfold effective_max_turns, user_max_turns_of.
    destruct (get_or u "valves" VNone); simpl; try reflexivity;
      match goal with |- context [if ?c then _ else _] => destruct c end; reflexivity.
  - reflexivity.
Qed.

Lemma inlet_cases (valves : Valves.t) (body : dict) (user : option dict) (t t' : trace)
    (body' : dict) :
  inlet unicode_lower str_other repeat_error requests_post valves body user t = (Ok body', t') ->
  body' = body
  \/ exists messages maps_context,
      dict_get body "messages" = Some (VList messages)
      /\ body' = dict_set body "messages" (VList (system_message maps_context :: messages)).
Proof.
  unfold inlet, io_bind, io_lift, io_ret. intros H.
  repeat (cbv beta in H;
          match type of H with
          | (if ?c then _ else _) _ = _ => destruct c eqn:?
          | (let (_, _) := ?x in _) = _ => destruct x as [[?|?] ?] eqn:?
          | match ?x with _ => _ end = _ => destruct x eqn:?
          | (Raise _, _) = (Ok _, _) => discriminate H
          end);
    try (injection H as <- <-; left; reflexivity).
  right. injection H as <- <-.
  match goal with
  | Hp : prepend (system_message ?c) _ = Ok _, Ht : negb (truthy _) = false |- _ =>
      unfold prepend, get_or in Hp, Ht;
      destruct (dict_get body "messages") as [[| | | | |l| |]|]; try discriminate;
      injection Hp as <-; exists l, c; split; reflexivity
  end.
Qed.

(** C7. Whatever the pre-call hook returns is the body it was given or
    that body with ["messages"] replaced by the synthesized system
    message followed by the original messages, unchanged and in their
    order; every other key keeps its value and the keys keep their
    order. *)
Theorem inlet_prepends (valves : Valves.t) (body : dict) (user : option dict)
    (t t' : trace) (body' : dict) :
  inlet unicode_lower str_other repeat_error requests_post valves body user t = (Ok body', t') ->
  body' = body
  \/ exists messages maps_context,
      dict_get body "messages" = Some (VList messages)
      /\ dict_get body' "messages"
         = Some (VList (system_message maps_context :: messages))
      /\ py_get (system_message maps_context) "role" VNone = Ok (VStr "system")
      /\ (forall k, k <> "messages" -> dict_get body' k = dict_get body k)
      /\ List.map fst body' = List.map fst body.
Proof.
  intros H. destruct (inlet_cases _ _ _ _ _ _ H) as [->|(messages & ctx & Hm & ->)].
  - now left.
  - right. exists messages, ctx. split; [exact Hm|]. split; [apply dict_get_set_same|].
    split; [reflexivity|]. split.
    + intros k Hk. now apply dict_get_set_other.
    + clear H. induction body as [|[k v] d IH]; simpl in *; [discriminate|].
      destruct (k =? "messages"); simpl; [reflexivity|]. f_equal. now apply IH.
Qed.

Lemma truthy_snoc (earlier : list pyval) (latest : pyval) :
  truthy (VList (earlier ++ [latest])) = true.
Proof. destruct earlier; reflexivity. Qed.

Lemma py_last_snoc (earlier : list pyval) (latest : pyval) :
  py_last (VList (earlier ++ [latest])) = Ok latest.
Proof. simpl. now rewrite rev_unit. Qed.

(** The steps of [inlet] before the latest message is looked at. *)
Ltac pass_flags valves user :=
  destruct (negb (Valves.enable_maps_integration valves)); [reflexivity|];
  destruct (disabled_for_user (user_valves_of user)); [reflexivity|].

Ltac reach_latest Hm :=
  rewrite Hm; cbn [py_len]; rewrite truthy_snoc, py_last_snoc; cbn [negb py_get].

Lemma inlet_no_result (valves : Valves.t) (body : dict) (user : option dict) (t : trace)
    (earlier : list pyval) (latest : dict) (text : string) (v : pyval) :
  check_turn_limit valves body user = Ok tt ->
  get_or body "messages" (VList []) = VList (earlier ++ [VDict latest]) ->
  get_or latest "content" (VStr "") = VStr text ->
  fst (call_maps_backend str_other repeat_error requests_post valves (VStr text) []) = Ok v ->
  truthy v = false ->
  fst (inlet unicode_lower str_other repeat_error requests_post valves body user t) = Ok body.
Proof.
  intros Hguard Hm Hc Hv Hfalse. unfold inlet, io_bind, io_lift, io_ret. rewrite Hguard.
  pass_flags valves user. reach_latest Hm.
  destruct (not_user_role (get_or latest "role" VNone)); [reflexivity|].
  rewrite Hc, is_location_query_eq.
  destruct (existsb _ location_keywords); [|reflexivity].
  rewrite <- call_maps_backend_any_trace with (t := t) in Hv.
  destruct (call_maps_backend str_other repeat_error requests_post valves (VStr text) t) as [r t''].
  simpl in Hv. subst r. rewrite Hfalse. reflexivity.
Qed.

(** C2, amended. Once the turn check has passed, the pre-call hook
    returns the body unchanged when the global integration flag is off,
    when the user's flag is explicitly off, when there are no messages,
    when the latest message's role is not [user], when the classifier
    answers [False], and when the backend client gives no result: a
    falsy value, as it does on a network error and on a status other
    than 200. *)
Theorem inlet_passes_through (valves : Valves.t) (body : dict) (user : option dict)
    (t : trace) :
  check_turn_limit valves body user = Ok tt ->
  passes_through unicode_lower str_other repeat_error requests_post valves body user ->
  fst (inlet unicode_lower str_other repeat_error requests_post valves body user t) = Ok body.
Proof.
  intros Hguard Hcase.
  destruct Hcase as [Hoff | u o Hu Hv Ho | Hm | earlier latest Hm Hrole
                    | earlier latest text Hm Hc Hq | earlier latest text v Hm Hc Hv Hfalse
                    | earlier latest text e Hm Hc He
                    | earlier latest text status json Hm Hc Hr Hs].
  1-5: unfold inlet, io_bind, io_lift, io_ret; rewrite Hguard.
  - rewrite Hoff. reflexivity.
  - destruct (negb (Valves.enable_maps_integration valves)); [reflexivity|].
    subst user. unfold disabled_for_user, user_valves_of.
    destruct u as [|p u]; [discriminate|].
    cbn [truthy]. rewrite (get_or_some _ _ _ _ Hv).
    cbn. rewrite Ho. reflexivity.
  - pass_flags valves user. rewrite Hm. reflexivity.
  - pass_flags valves user. reach_latest Hm. rewrite Hrole. reflexivity.
  - pass_flags valves user. reach_latest Hm.
    destruct (not_user_role (get_or latest "role" VNone)); [reflexivity|].
    rewrite Hc, Hq. reflexivity.
  - now apply inlet_no_result with earlier latest text v.
  - apply inlet_no_result with earlier latest text VNone; auto.
    erewrite call_maps_backend_caught; [reflexivity|].
    unfold call_maps_backend_try. rewrite He. reflexivity.
  - apply inlet_no_result with earlier latest text VNone; auto.
    erewrite call_maps_backend_ok; [reflexivity|].
    unfold call_maps_backend_try. rewrite Hr.
    destruct (status =? 200)%Z eqn:E; [apply Z.eqb_eq in E; contradiction | reflexivity].
Qed.
End PreCall.

(** C1, as stated, fails: without a user context a conversation of nine
    messages, more than [min(4, 8)], passes the pre-call hook unchanged. *)
Lemma inlet_without_user_passes_long_conversation :
  py_len (get_or Sample.long_body "messages" (VList [])) = Ok 9%Z
  /\ (9 > Z.min 4 (Valves.max_turns Valves.default))%Z
  /\ inlet Sample.unicode_lower Sample.str_other Sample.repeat_error Sample.backend_ok Valves.default
       Sample.long_body None []
     = (Ok Sample.long_body, []).
Proof. split; [|split]; vm_compute; reflexivity. Qed.

(** An admin's conversation of nine messages under the default limits. *)
Lemma inlet_turn_limit_witness :
  inlet Sample.unicode_lower Sample.str_other Sample.repeat_error Sample.backend_ok Valves.default
    Sample.long_body (Some Sample.admin) []
  = (Raise (Exception "Conversation turn limit exceeded. Max turns: 4"), [])
  /\ effective_max_turns Valves.default Sample.admin = Z.min 4 8
  /\ Valves.max_turns Valves.default = 8%Z.
Proof.
  refine (inlet_turn_limit Sample.unicode_lower Sample.str_other Sample.repeat_error Sample.backend_ok
            Valves.default Sample.long_body Sample.admin _ [] _ _ eq_refl _).
  - discriminate.
  - reflexivity.
  - reflexivity.
Defined.

(** C2, as stated, fails: on a 200 response whose JSON says
    [success = false] the backend client returns that JSON, a non-empty
    [dict], and the pre-call hook injects a system message built from it
    (with the "No places found" placeholder). *)
Lemma inlet_injects_on_unsuccessful_response :
  fst (inlet Sample.unicode_lower Sample.str_other Sample.repeat_error Sample.backend_unsuccessful Valves.default
         (Sample.body_of "find pizza") None [])
  = Ok [("model", VStr "llama3");
        ("messages", VList [system_message Sample.unsuccessful_context;
                            Sample.user_message "find pizza"])]
  /\ fst (inlet Sample.unicode_lower Sample.str_other Sample.repeat_error Sample.backend_unsuccessful
            Valves.default (Sample.body_of "find pizza") None [])
     <> Ok (Sample.body_of "find pizza")
  /\ PyStr.contains "No places found" Sample.unsuccessful_context = true.
Proof.
  split; [|split].
  - vm_compute. reflexivity.
  - intros H. vm_compute in H. discriminate H.
  - vm_compute. reflexivity.
Qed.

(** The pre-call hook against a backend that is down, against one that
    answers with status 500, and for a user who opted out. *)
Lemma inlet_passes_through_witness :
  fst (inlet Sample.unicode_lower Sample.str_other Sample.repeat_error Sample.backend_down Valves.default
         (Sample.body_of "find pizza") None [])
  = Ok (Sample.body_of "find pizza")
  /\ fst (inlet Sample.unicode_lower Sample.str_other Sample.repeat_error Sample.backend_500 Valves.default
            (Sample.body_of "find pizza") None [])
     = Ok (Sample.body_of "find pizza")
  /\ fst (inlet Sample.unicode_lower Sample.str_other Sample.repeat_error Sample.backend_ok Valves.default
            (Sample.body_of "find pizza") (Some Sample.opted_out) [])
     = Ok (Sample.body_of "find pizza").
Proof.
  split; [|split].
  - apply (inlet_passes_through Sample.unicode_lower Sample.str_other Sample.repeat_error Sample.backend_down
             Valves.default (Sample.body_of "find pizza") None [] eq_refl).
    apply (Backend_unreachable _ _ _ _ _ _ _ []
             [("role", VStr "user"); ("content", VStr "find pizza")] "find pizza"
             RequestException); reflexivity.
  - apply (inlet_passes_through Sample.unicode_lower Sample.str_other Sample.repeat_error Sample.backend_500
             Valves.default (Sample.body_of "find pizza") None [] eq_refl).
    apply (Backend_error_status _ _ _ _ _ _ _ []
             [("role", VStr "user"); ("content", VStr "find pizza")] "find pizza"
             500%Z (Ok (VDict [("success", VBool false)]))); try reflexivity.
    discriminate.
  - apply (inlet_passes_through Sample.unicode_lower Sample.str_other Sample.repeat_error Sample.backend_ok
             Valves.default (Sample.body_of "find pizza") (Some Sample.opted_out) [] eq_refl).
    apply (Integration_off_for_user _ _ _ _ _ _ _ Sample.opted_out
             {| UserValves.max_turns := Some 4%Z;
                UserValves.enable_maps_for_user := Some false |}); reflexivity.
Defined.

(** The pre-call hook on a location query against a backend with places. *)
Lemma inlet_prepends_witness :
  Sample.body_after Sample.run_find_cafe = Sample.body_of "find cafe"
  \/ exists messages maps_context,
      dict_get (Sample.body_of "find cafe") "messages" = Some (VList messages)
      /\ dict_get (Sample.body_after Sample.run_find_cafe) "messages"
         = Some (VList (system_message maps_context :: messages))
      /\ py_get (system_message maps_context) "role" VNone = Ok (VStr "system")
      /\ (forall k, k <> "messages" ->
                    dict_get (Sample.body_after Sample.run_find_cafe) k
                    = dict_get (Sample.body_of "find cafe") k)
      /\ List.map fst (Sample.body_after Sample.run_find_cafe)
         = List.map fst (Sample.body_of "find cafe").
Proof.
  apply (inlet_prepends Sample.unicode_lower Sample.str_other Sample.repeat_error Sample.backend_ok
           Valves.default (Sample.body_of "find cafe") None [] (snd Sample.run_find_cafe)).
  vm_compute. reflexivity.
Defined.

(** ** Substitution: what it keeps *)

Lemma string_length_app (a b : string) :
  String.length (a ++ b) = String.length a + String.length b.
Proof. induction a as [|c a IH]; simpl; [reflexivity | now rewrite IH]. Qed.

Lemma startswith_length (p s : string) :
  PyStr.startswith p s = true -> String.length p <= String.length s.
Proof.
  intros H. destruct (startswith_inv _ _ H) as [r ->]. rewrite string_length_app. lia.
Qed.

Lemma first_match_some (alts : list string) (tail s a : string) :
  first_match alts tail s = Some a ->
  In a alts /\ PyStr.startswith (a ++ tail) s = true.
Proof.
  induction alts as [|b alts IH]; simpl; [discriminate|].
  destruct (PyStr.startswith (b ++ tail) s) eqn:E.
  - intros H. injection H as <-. auto.
  - intros H. destruct (IH H). auto.
Qed.

Lemma first_match_none (alts : list string) (tail s : string) :
  first_match alts tail s = None <->
  forall a, In a alts -> PyStr.startswith (a ++ tail) s = false.
Proof.
  induction alts as [|b alts IH]; simpl.
  - split; [intros _ a [] | reflexivity].
  - destruct (PyStr.startswith (b ++ tail) s) eqn:E.
    + split; [discriminate|]. intros H. specialize (H b (or_introl eq_refl)). congruence.
    + rewrite IH. split.
      * intros H a [<-|Ha]; auto.
      * intros H a Ha. apply H. now right.
Qed.

Section Substitution.
Variable alts : list string.
Variable tail : string.
Variable repl : string -> string.

(** Text in which no alternative occurs is left as it is. *)
Lemma re_sub_identity (s : string) :
  (forall a, In a alts -> PyStr.contains (a ++ tail) s = false) ->
  re_sub alts tail repl s = s.
Proof.
  unfold re_sub. induction s as [|c s IH]; intros H; [reflexivity|].
  cbn [re_sub_from].
  assert (Hnone : first_match alts tail (String c s) = None).
  { apply first_match_none. intros a Ha. specialize (H a Ha).
    rewrite contains_unfold in H. now apply orb_false_iff in H. }
  rewrite Hnone. f_equal. apply IH. intros a Ha. specialize (H a Ha).
  rewrite contains_unfold in H. now apply orb_false_iff in H.
Qed.

Hypothesis grows : forall a, In a alts ->
  String.length (a ++ tail) < String.length (repl a).

Lemma re_sub_from_length (s : string) (skip : nat) :
  String.length s - skip <= String.length (re_sub_from alts tail repl s skip).
Proof.
  revert skip. induction s as [|c s IH]; intros skip; [simpl; lia|].
  cbn [re_sub_from]. destruct skip as [|n].
  - destruct (first_match alts tail (String c s)) as [a|] eqn:E.
    + destruct (first_match_some _ _ _ _ E) as [Ha Hs].
      apply startswith_length in Hs. pose proof (grows a Ha) as Hg.
      specialize (IH (String.length (a ++ tail) - 1)).
      rewrite string_length_app.
      set (L := String.length (a ++ tail)) in *. clearbody L.
      cbn [String.length] in *. lia.
    + specialize (IH 0). cbn [String.length]. lia.
  - specialize (IH n). cbn [String.length]. lia.
Qed.

Hypothesis nonempty : forall a, In a alts -> a ++ tail <> "".

Lemma re_sub_from_grows (s : string) (skip : nat) :
  (exists a, In a alts /\ PyStr.contains (a ++ tail) (string_drop skip s) = true) ->
  String.length s - skip < String.length (re_sub_from alts tail repl s skip).
Proof.
  revert skip. induction s as [|c s IH]; intros skip (a & Ha & Hc).
  - exfalso. assert (string_drop skip "" = "") by (destruct skip; reflexivity).
    rewrite H in Hc. simpl in Hc. rewrite orb_false_r in Hc.
    pose proof (nonempty a Ha) as Hn. destruct (a ++ tail); [contradiction | discriminate].
  - cbn [re_sub_from]. destruct skip as [|n].
    + destruct (first_match alts tail (String c s)) as [b|] eqn:E.
      * destruct (first_match_some _ _ _ _ E) as [Hb Hs].
        apply startswith_length in Hs. pose proof (grows b Hb) as Hg.
        pose proof (re_sub_from_length s (String.length (b ++ tail) - 1)).
        assert (1 <= String.length (b ++ tail))
          by (pose proof (nonempty b Hb); destruct (b ++ tail); [contradiction | simpl; lia]).
        rewrite string_length_app.
        set (L := String.length (b ++ tail)) in *. clearbody L.
        cbn [String.length] in *. lia.
      * simpl in Hc. rewrite contains_unfold in Hc.
        rewrite first_match_none in E. rewrite (E a Ha) in Hc. simpl in Hc.
        assert (Hex : exists a, In a alts /\ PyStr.contains (a ++ tail) (string_drop 0 s) = true).
        { exists a. split; [assumption|]. destruct s; exact Hc. }
        specialize (IH 0 Hex). cbn [String.length]. lia.
    + simpl in Hc. assert (Hex : exists a, In a alts
                             /\ PyStr.contains (a ++ tail) (string_drop n s) = true)
        by (exists a; auto).
      specialize (IH n Hex). cbn [String.length]. lia.
Qed.

Lemma re_sub_length (s : string) :
  String.length s <= String.length (re_sub alts tail repl s).
Proof. pose proof (re_sub_from_length s 0). unfold re_sub. lia. Qed.

Lemma re_sub_grows (s : string) (a : string) :
  In a alts -> PyStr.contains (a ++ tail) s = true ->
  String.length s < String.length (re_sub alts tail repl s).
Proof.
  intros Ha Hc. unfold re_sub.
  assert (H : String.length s - 0 < String.length (re_sub_from alts tail repl s 0)).
  { apply re_sub_from_grows. exists a. split; [assumption|]. destruct s; exact Hc. }
  lia.
Qed.

End Substitution.

(** ** The enhancer: what it leaves alone and what it changes *)

Lemma enhance_pass1_grows (a : string) :
  In a ["Google Maps"; "Maps"; "Lokasi"; "Location"] ->
  String.length (a ++ "") < String.length (Glyph.map_ ++ " " ++ a).
Proof. intros H. rewrite !string_length_app. simpl. lia. Qed.

Lemma enhance_pass2_grows (a : string) :
  In a ["Address"; "Alamat"] ->
  String.length (a ++ ":") < String.length (Glyph.pin ++ " " ++ a ++ ":").
Proof. intros H. rewrite !string_length_app. simpl. lia. Qed.

Lemma enhance_pass3_grows (a : string) :
  In a ["Rating"; Glyph.star] ->
  String.length (a ++ "") < String.length (Glyph.star ++ " Rating").
Proof. intros [<-|[<-|[]]]; simpl; lia. Qed.

Lemma enhance_pass4_grows (a : string) :
  In a ["Direction"; "Petunjuk"; "Arah"] ->
  String.length (a ++ "") < String.length (Glyph.compass ++ " " ++ a).
Proof. intros H. rewrite !string_length_app. simpl. lia. Qed.

Lemma literal_nonempty (alts : list string) (tail : string) :
  forallb (fun a => negb (a ++ tail =? "")) alts = true ->
  forall a, In a alts -> a ++ tail <> "".
Proof.
  intros H a Ha. rewrite forallb_forall in H. specialize (H a Ha).
  intros E. rewrite E in H. discriminate.
Qed.

(** X1. The enhancer never shortens a text: every replacement keeps the
    literal it matched and puts a glyph before it. *)
Theorem enhance_never_shortens (content : string) :
  String.length content <= String.length (enhance_maps_response content).
Proof.
  unfold enhance_maps_response.
  pose proof (re_sub_length _ _ _ enhance_pass1_grows content) as H1.
  pose proof (fun s => re_sub_length _ _ _ enhance_pass2_grows s) as H2.
  pose proof (fun s => re_sub_length _ _ _ enhance_pass3_grows s) as H3.
  pose proof (fun s => re_sub_length _ _ _ enhance_pass4_grows s) as H4.
  eapply Nat.le_trans; [exact H1|].
  eapply Nat.le_trans; [apply H2|].
  eapply Nat.le_trans; [apply H3|]. apply H4.
Qed.

(** X2. The enhancer leaves a text as it is exactly when the text holds
    none of the literals it looks for ("Maps", "Lokasi", "Location",
    "Address:", "Alamat:", "Rating", the star glyph, "Direction",
    "Petunjuk", "Arah"); any text that holds one is changed. *)
Theorem enhance_fixed_points (content : string) :
  enhance_maps_response content = content
  <-> forall k, In k enhance_triggers -> PyStr.contains k content = false.
Proof.
  assert (N1 := literal_nonempty ["Google Maps"; "Maps"; "Lokasi"; "Location"] "" eq_refl).
  assert (N2 := literal_nonempty ["Address"; "Alamat"] ":" eq_refl).
  assert (N3 := literal_nonempty ["Rating"; Glyph.star] "" eq_refl).
  assert (N4 := literal_nonempty ["Direction"; "Petunjuk"; "Arah"] "" eq_refl).
  split.
  - intros Hfix.
    unfold enhance_maps_response in Hfix.
    set (s1 := re_sub ["Google Maps"; "Maps"; "Lokasi"; "Location"] ""
                 (fun g => Glyph.map_ ++ " " ++ g) content) in *.
    set (s2 := re_sub ["Address"; "Alamat"] ":" (fun g => Glyph.pin ++ " " ++ g ++ ":") s1) in *.
    set (s3 := re_sub ["Rating"; Glyph.star] "" (fun _ => Glyph.star ++ " Rating") s2) in *.
    pose proof (re_sub_length _ _ _ enhance_pass1_grows content) as L1. fold s1 in L1.
    pose proof (re_sub_length _ _ _ enhance_pass2_grows s1) as L2. fold s2 in L2.
    pose proof (re_sub_length _ _ _ enhance_pass3_grows s2) as L3. fold s3 in L3.
    pose proof (re_sub_length _ _ _ enhance_pass4_grows s3) as L4. rewrite Hfix in L4.
    assert (P1 : forall a, In a ["Google Maps"; "Maps"; "Lokasi"; "Location"] ->
                           PyStr.contains (a ++ "") content = false).
    { intros a Ha. destruct (PyStr.contains (a ++ "") content) eqn:E; [|reflexivity].
      pose proof (re_sub_grows _ _ _ enhance_pass1_grows N1 content a Ha E) as G.
      fold s1 in G. lia. }
    assert (E1 : s1 = content) by (now apply re_sub_identity).
    assert (P2 : forall a, In a ["Address"; "Alamat"] ->
                           PyStr.contains (a ++ ":") content = false).
    { intros a Ha. destruct (PyStr.contains (a ++ ":") content) eqn:E; [|reflexivity].
      rewrite <- E1 in E.
      pose proof (re_sub_grows _ _ _ enhance_pass2_grows N2 s1 a Ha E) as G.
      fold s2 in G. lia. }
    assert (E2 : s2 = content).
    { unfold s2. rewrite E1. now apply re_sub_identity. }
    assert (P3 : forall a, In a ["Rating"; Glyph.star] ->
                           PyStr.contains (a ++ "") content = false).
    { intros a Ha. destruct (PyStr.contains (a ++ "") content) eqn:E; [|reflexivity].
      rewrite <- E2 in E.
      pose proof (re_sub_grows _ _ _ enhance_pass3_grows N3 s2 a Ha E) as G.
      fold s3 in G. lia. }
    assert (E3 : s3 = content).
    { unfold s3. rewrite E2. now apply re_sub_identity. }
    assert (P4 : forall a, In a ["Direction"; "Petunjuk"; "Arah"] ->
                           PyStr.contains (a ++ "") content = false).
    { intros a Ha. destruct (PyStr.contains (a ++ "") content) eqn:E; [|reflexivity].
      rewrite <- E3 in E.
      pose proof (re_sub_grows _ _ _ enhance_pass4_grows N4 s3 a Ha E) as G.
      rewrite Hfix in G. lia. }
    intros k Hk. unfold enhance_triggers in Hk. simpl in Hk.
    repeat match goal with
           | H : _ \/ _ |- _ => destruct H as [<-|H]
           | H : False |- _ => destruct H
           end.
    + apply (P1 "Google Maps"). simpl. tauto.
    + apply (P1 "Maps"). simpl. tauto.
    + apply (P1 "Lokasi"). simpl. tauto.
    + apply (P1 "Location"). simpl. tauto.
    + apply (P2 "Address"). simpl. tauto.
    + apply (P2 "Alamat"). simpl. tauto.
    + apply (P3 "Rating"). simpl. tauto.
    + apply (P3 Glyph.star). simpl. tauto.
    + apply (P4 "Direction"). simpl. tauto.
    + apply (P4 "Petunjuk"). simpl. tauto.
    + apply (P4 "Arah"). simpl. tauto.
  - intros Hnone. unfold enhance_maps_response.
    assert (Hpass : forall alts tail repl,
               (forall a, In a alts -> In (a ++ tail) enhance_triggers) ->
               re_sub alts tail repl content = content).
    { intros alts tail repl Hin. apply re_sub_identity. intros a Ha. apply Hnone. auto. }
    rewrite (Hpass ["Google Maps"; "Maps"; "Lokasi"; "Location"]);
      [|intros a [<-|[<-|[<-|[<-|[]]]]]; simpl; tauto].
    rewrite (Hpass ["Address"; "Alamat"]); [|intros a [<-|[<-|[]]]; simpl; tauto].
    rewrite (Hpass ["Rating"; Glyph.star]); [|intros a [<-|[<-|[]]]; simpl; tauto].
    apply Hpass. intros a [<-|[<-|[<-|[]]]]; simpl; tauto.
Qed.

(** ** The post-call hook: what it changes and what it leaves *)

Lemma dict_set_keys (d : dict) (k : string) (v x : pyval) :
  dict_get d k = Some x -> List.map fst (dict_set d k v) = List.map fst d.
Proof.
  induction d as [|[k' v'] d IH]; simpl; [discriminate|].
  destruct (k' =? k); simpl; [reflexivity|]. intros H. f_equal. now apply IH.
Qed.

Lemma get_or_truthy_str (d : dict) (k : string) (v : pyval) :
  get_or d k (VStr "") = v -> truthy v = true -> dict_get d k = Some v.
Proof.
  unfold get_or. destruct (dict_get d k); intros <-; [reflexivity | discriminate].
Qed.

Lemma get_or_dict_some (d : dict) (k : string) (m : dict) :
  get_or d k (VDict []) = VDict m -> m <> [] -> dict_get d k = Some (VDict m).
Proof.
  unfold get_or. destruct (dict_get d k); intros H.
  - now subst.
  - injection H as <-. contradiction.
Qed.

Lemma outlet_cases (body : dict) (user : option dict) (body' : dict) :
  outlet body user = Ok body' ->
  body' = body
  \/ (exists first others m text,
        dict_get body "choices" = Some (VList (VDict first :: others))
        /\ dict_get first "message" = Some (VDict m)
        /\ dict_get m "content" = Some (VStr text)
        /\ body' = dict_set body "choices"
                     (VList (VDict (dict_set first "message"
                                      (VDict (dict_set m "content"
                                                (VStr (enhance_maps_response text)))))
                             :: others)))
  \/ (exists m text,
        has_choices body = false
        /\ dict_get body "message" = Some (VDict m)
        /\ dict_get m "content" = Some (VStr text)
        /\ body' = dict_set body "message"
                     (VDict (dict_set m "content" (VStr (enhance_maps_response text))))).
Proof.
  unfold outlet. intros H. destruct (has_choices body) eqn:Hc.
  - unfold has_choices in Hc.
    destruct (dict_get body "choices") as [choices|] eqn:Hch; [|discriminate].
    cbn [py_getitem bind] in H. rewrite Hch in H. cbn [bind] in H.
    destruct choices as [| | | |s|l| |]; try discriminate H.
    { cbn [py_first bind] in H. destruct (PyStr.codepoints s); discriminate H. }
    destruct l as [|first others]; [discriminate|].
    cbn [py_first bind] in H.
    destruct first as [| | | | | |first|]; try discriminate H.
    cbn [py_get bind] in H.
    destruct (get_or first "message" (VDict [])) as [| | | | | |m|] eqn:Hm; try discriminate H.
    cbn [py_get bind] in H.
    destruct (truthy (get_or m "content" (VStr ""))) eqn:Ht;
      [|injection H as <-; now left].
    destruct (get_or m "content" (VStr "")) as [| | | |text| | |] eqn:Hcont; try discriminate H.
    cbn [enhance_value bind] in H.
    pose proof (get_or_truthy_str _ _ _ Hcont Ht) as Hcontent.
    assert (Hmsg : dict_get first "message" = Some (VDict m)).
    { apply get_or_dict_some; [exact Hm|]. intros ->. discriminate. }
    unfold set_message_content in H. cbn [py_getitem bind] in H. rewrite Hmsg in H.
    cbn [bind] in H. injection H as <-. right. left. exists first, others, m, text. auto.
  - destruct (has_message body) eqn:Hmsg.
    + unfold has_message in Hmsg.
      destruct (dict_get body "message") as [message|] eqn:Hm; [|discriminate].
      cbn [py_getitem bind] in H. rewrite Hm in H. cbn [bind] in H.
      destruct message as [| | | | | |m|]; try discriminate H.
      cbn [py_get bind] in H.
      destruct (truthy (get_or m "content" (VStr ""))) eqn:Ht;
        [|injection H as <-; now left].
      destruct (get_or m "content" (VStr "")) as [| | | |text| | |] eqn:Hcont;
        try discriminate H.
      cbn [enhance_value bind] in H.
      pose proof (get_or_truthy_str _ _ _ Hcont Ht) as Hcontent.
      unfold set_message_content in H. cbn [py_getitem bind] in H. rewrite Hm in H.
      cbn [bind] in H. injection H as <-. right. right. exists m, text. auto.
    + cbn [bind truthy String.eqb negb] in H. injection H as <-. now left.
Qed.

(** X3. Whatever the post-call hook returns is the body it was given, or
    that body with the one content text it read replaced by the enhanced
    text: under [choices[0].message.content] when [choices] is a
    non-empty list (the other choices are kept), under [message.content]
    otherwise. The keys keep their order, every key but ["choices"] and
    ["message"] keeps its value, and ["message"] keeps its value when
    [choices] was read. *)
Theorem outlet_only_enhances_content (body : dict) (user : option dict) (body' : dict) :
  outlet body user = Ok body' ->
  (body' = body
   \/ (exists first others m text,
         dict_get body "choices" = Some (VList (VDict first :: others))
         /\ dict_get first "message" = Some (VDict m)
         /\ dict_get m "content" = Some (VStr text)
         /\ body' = dict_set body "choices"
                      (VList (VDict (dict_set first "message"
                                       (VDict (dict_set m "content"
                                                 (VStr (enhance_maps_response text)))))
                              :: others)))
   \/ (exists m text,
         has_choices body = false
         /\ dict_get body "message" = Some (VDict m)
         /\ dict_get m "content" = Some (VStr text)
         /\ body' = dict_set body "message"
                      (VDict (dict_set m "content" (VStr (enhance_maps_response text))))))
  /\ List.map fst body' = List.map fst body
  /\ (forall k, k <> "choices" -> k <> "message" -> dict_get body' k = dict_get body k)
  /\ (has_choices body = true -> dict_get body' "message" = dict_get body "message").
Proof.
  intros H. pose proof (outlet_cases _ _ _ H) as Hcases. split; [exact Hcases|].
  destruct Hcases
    as [->|[(first & others & m & text & Hc & _ & _ & ->)|(m & text & Hc & Hm & _ & ->)]].
  - auto.
  - split; [now apply dict_set_keys with (x := VList (VDict first :: others))|].
    split; intros; apply dict_get_set_other; auto. discriminate.
  - split; [now apply dict_set_keys with (x := VDict m)|].
    split; [intros; apply dict_get_set_other; auto | congruence].
Qed.

(** The post-call hook on a response in the [choices] shape. *)
Lemma outlet_only_enhances_content_witness :
  (Sample.openai_response "📍 Address: 123 Main St, ⭐ Rating 4.5"
   = Sample.openai_response Sample.address_rating
   \/ (exists first others m text,
         dict_get (Sample.openai_response Sample.address_rating) "choices"
         = Some (VList (VDict first :: others))
         /\ dict_get first "message" = Some (VDict m)
         /\ dict_get m "content" = Some (VStr text)
         /\ Sample.openai_response "📍 Address: 123 Main St, ⭐ Rating 4.5"
            = dict_set (Sample.openai_response Sample.address_rating) "choices"
                (VList (VDict (dict_set first "message"
                                 (VDict (dict_set m "content"
                                           (VStr (enhance_maps_response text)))))
                        :: others)))
   \/ (exists m text,
         has_choices (Sample.openai_response Sample.address_rating) = false
         /\ dict_get (Sample.openai_response Sample.address_rating) "message"
            = Some (VDict m)
         /\ dict_get m "content" = Some (VStr text)
         /\ Sample.openai_response "📍 Address: 123 Main St, ⭐ Rating 4.5"
            = dict_set (Sample.openai_response Sample.address_rating) "message"
                (VDict (dict_set m "content" (VStr (enhance_maps_response text))))))
  /\ List.map fst (Sample.openai_response "📍 Address: 123 Main St, ⭐ Rating 4.5")
     = List.map fst (Sample.openai_response Sample.address_rating)
  /\ (forall k, k <> "choices" -> k <> "message" ->
                dict_get (Sample.openai_response "📍 Address: 123 Main St, ⭐ Rating 4.5") k
                = dict_get (Sample.openai_response Sample.address_rating) k)
  /\ (has_choices (Sample.openai_response Sample.address_rating) = true ->
      dict_get (Sample.openai_response "📍 Address: 123 Main St, ⭐ Rating 4.5") "message"
      = dict_get (Sample.openai_response Sample.address_rating) "message").
Proof.
  apply (outlet_only_enhances_content (Sample.openai_response Sample.address_rating) None).
  vm_compute. reflexivity.
Defined.

(** X4. When [choices] is a non-empty list whose first item is an object
    without a ["message"], the post-call hook returns the body unchanged,
    whatever a top-level ["message"] holds: the [message] shape is looked
    at only when [choices] is absent or falsy. *)
Theorem outlet_choices_shadow_message (body : dict) (user : option dict) (first : dict)
    (others : list pyval) :
  dict_get body "choices" = Some (VList (VDict first :: others)) ->
  dict_get first "message" = None ->
  outlet body user = Ok body.
Proof.
  intros Hc Hm. unfold outlet, has_choices. rewrite Hc. cbn [truthy py_getitem bind].
  rewrite Hc. cbn [py_first py_get bind]. unfold get_or at 1. rewrite Hm. reflexivity.
Qed.

(** The first choice has no message; the top-level message is left alone. *)
Lemma outlet_choices_shadow_message_witness :
  outlet Edge.response_without_message None = Ok Edge.response_without_message.
Proof.
  apply (outlet_choices_shadow_message Edge.response_without_message None
           [("index", VInt 0)] []); reflexivity.
Defined.

(** X5. When the content the post-call hook reads is truthy and not a
    string (a list of parts, say), the hook raises [TypeError], in either
    response shape: [re.sub] takes text only. *)
Theorem outlet_content_not_text (body : dict) (user : option dict) (m : dict) (content : pyval) :
  dict_get m "content" = Some content ->
  truthy content = true ->
  is_str content = false ->
  (forall first others,
      dict_get body "choices" = Some (VList (VDict first :: others)) ->
      dict_get first "message" = Some (VDict m) ->
      outlet body user = Raise TypeError)
  /\ (has_choices body = false ->
      dict_get body "message" = Some (VDict m) ->
      outlet body user = Raise TypeError).
Proof.
  intros Hcont Ht Hs. split.
  - intros first others Hc Hm. unfold outlet, has_choices. rewrite Hc.
    cbn [truthy py_getitem bind]. rewrite Hc. cbn [py_first py_get bind].
    rewrite (get_or_some _ _ _ _ Hm). cbn [py_get bind].
    rewrite (get_or_some _ _ _ _ Hcont), Ht. destruct content; try discriminate; reflexivity.
  - intros Hc Hm. unfold outlet, has_message. rewrite Hc, Hm.
    cbn [py_getitem bind]. rewrite Hm. cbn [py_get bind].
    rewrite (get_or_some _ _ _ _ Hcont), Ht. destruct content; try discriminate; reflexivity.
Qed.

(** ** The backend client: the other answers *)

Lemma string_app_assoc (a b c : string) : (a ++ b) ++ c = a ++ b ++ c.
Proof. induction a as [|x a IH]; simpl; [reflexivity | now rewrite IH]. Qed.

(** The message shape, with the content a list of parts. *)
Lemma outlet_content_not_text_witness :
  outlet Edge.response_with_parts None = Raise TypeError.
Proof.
  apply (proj2 (outlet_content_not_text Edge.response_with_parts None
                  [("role", VStr "assistant"); ("content", Edge.parts)] Edge.parts
                  eq_refl eq_refl eq_refl)); reflexivity.
Defined.

Section BackendMore.
Variable str_other : pyval -> string.
Variable repeat_error : Z -> option exn.
Variable requests_post : request -> http_outcome.

Lemma format_place_lacks_required (place : pyval) :
  lacks_required place = true -> exists e, format_place str_other repeat_error place = Raise e.
Proof.
  destruct place as [| | | | | |d|]; try (intros _; eexists; reflexivity).
  unfold lacks_required, field_present. simpl field_key. intros H.
  exists KeyError. apply format_place_missing_key.
  destruct (dict_get d "name"); [|now left].
  destruct (dict_get d "formatted_address"); [discriminate | now right].
Qed.

Lemma format_places_raises (places : list pyval) (place : pyval) (e : exn) :
  In place places -> format_place str_other repeat_error place = Raise e ->
  exists e', format_places str_other repeat_error places = Raise e'.
Proof.
  induction places as [|p places IH]; intros Hin He; [contradiction|].
  simpl format_places. destruct Hin as [->|Hin].
  - rewrite He. eexists. reflexivity.
  - destruct (format_place str_other repeat_error p); [|eexists; reflexivity]. cbn [bind].
    destruct (IH Hin He) as [e' ->]. eexists. reflexivity.
Qed.

(** X6. On a 200 response whose JSON is an object with a falsy [success],
    or without ["data"], or whose [data.places] is falsy (absent, empty),
    the backend client returns that JSON itself, unchanged. *)
Theorem call_maps_backend_raw_json (valves : Valves.t) (query : pyval) (t : trace)
    (parsed : dict) :
  requests_post (search_request valves query) = Response 200 (Ok (VDict parsed)) ->
  truthy (get_or parsed "success" VNone) = false
  \/ dict_get parsed "data" = None
  \/ (exists data, dict_get parsed "data" = Some (VDict data)
                   /\ truthy (get_or data "places" (VList [])) = false) ->
  call_maps_backend str_other repeat_error requests_post valves query t
  = (Ok (VDict parsed), (t ++ [search_request valves query])%list).
Proof.
  intros Hr Hcase. apply call_maps_backend_ok. unfold call_maps_backend_try. rewrite Hr.
  cbn [Z.eqb Pos.eqb fst bind]. unfold extract_places. cbn [py_get bind].
  destruct Hcase as [Hs|[Hd|(data & Hd & Hp)]].
  - rewrite Hs. reflexivity.
  - destruct (truthy (get_or parsed "success" VNone)); [|reflexivity].
    cbn [py_in bind]. rewrite Hd. reflexivity.
  - destruct (truthy (get_or parsed "success" VNone)); [|reflexivity].
    cbn [py_in bind]. rewrite Hd. cbn [py_getitem bind]. rewrite Hd.
    cbn [py_get bind]. rewrite Hp. reflexivity.
Qed.

Lemma extract_places_dict (parsed v : pyval) :
  extract_places str_other repeat_error parsed = Ok v -> exists d, v = VDict d.
Proof.
  unfold extract_places. destruct parsed as [| | | | | |p|]; try discriminate.
  cbn [py_get bind]. intros H.
  repeat match type of H with
         | bind ?m _ = _ => destruct m eqn:?; cbn [bind] in H
         | (if ?c then _ else _) = _ => destruct c eqn:?
         | Raise _ = Ok _ => discriminate H
         end;
    injection H as <-; eexists; reflexivity.
Qed.

(** X7. Whatever the backend does, the backend client sends its one
    request and returns [None] or a [dict], as its annotation
    [Optional[dict]] says: JSON that is not an object ends in [None]. *)
Theorem call_maps_backend_optional_dict (valves : Valves.t) (query : pyval) (t : trace) :
  (exists v,
      call_maps_backend str_other repeat_error requests_post valves query t
      = (Ok v, (t ++ [search_request valves query])%list)
      /\ (v = VNone \/ exists d, v = VDict d))
  /\ (forall parsed,
        requests_post (search_request valves query) = Response 200 (Ok parsed) ->
        is_dict parsed = false ->
        call_maps_backend str_other repeat_error requests_post valves query t
        = (Ok VNone, (t ++ [search_request valves query])%list)).
Proof.
  split.
  2: { intros parsed Hr Hd. apply call_maps_backend_caught with AttributeError.
       unfold call_maps_backend_try. rewrite Hr. cbn [Z.eqb Pos.eqb fst bind].
       destruct parsed; try reflexivity. discriminate. }
  destruct (fst (call_maps_backend_try str_other repeat_error requests_post valves query t)) as [v|e] eqn:E.
  - exists v. split; [now apply call_maps_backend_ok|].
    unfold call_maps_backend_try in E.
    destruct (requests_post (search_request valves query)) as [e|status json]; [discriminate|].
    destruct (status =? 200)%Z; simpl in E.
    + destruct json as [parsed|e]; [|discriminate]. cbn [bind] in E.
      right. now apply extract_places_dict with parsed.
    + injection E as <-. now left.
  - exists VNone. split; [now apply call_maps_backend_caught with e | now left].
Qed.

(** X8. One value among the first five places that is not an object, or
    that lacks ["name"] or ["formatted_address"], makes the backend client
    return [None]: the blocks of the other places are dropped with it. *)
Theorem call_maps_backend_bad_place (valves : Valves.t) (query : pyval) (t : trace)
    (parsed data : dict) (places : list pyval) (place : pyval) :
  requests_post (search_request valves query) = Response 200 (Ok (VDict parsed)) ->
  truthy (get_or parsed "success" VNone) = true ->
  dict_get parsed "data" = Some (VDict data) ->
  dict_get data "places" = Some (VList places) ->
  In place (firstn 5 places) ->
  lacks_required place = true ->
  call_maps_backend str_other repeat_error requests_post valves query t
  = (Ok VNone, (t ++ [search_request valves query])%list).
Proof.
  intros Hr Hs Hd Hp Hin Hbad.
  destruct (format_place_lacks_required place Hbad) as [e He].
  destruct (format_places_raises _ _ _ Hin He) as [e' He'].
  apply call_maps_backend_caught with e'. unfold call_maps_backend_try. rewrite Hr.
  cbn [Z.eqb Pos.eqb fst bind]. unfold extract_places. cbn [py_get bind].
  rewrite Hs. cbn [py_in bind]. rewrite Hd. cbn [py_getitem bind]. rewrite Hd.
  cbn [py_get bind]. rewrite (get_or_some _ _ _ _ Hp).
  destruct places as [|p ps]; [destruct Hin|].
  cbn [truthy py_first5 bind]. rewrite He'. reflexivity.
Qed.

(** X18. One place among the first five whose price level is an integer
    the glyph cannot be repeated to ([OverflowError], [MemoryError])
    makes the backend client return [None], whatever the other places
    are. *)
Theorem call_maps_backend_unrepeatable_price (valves : Valves.t) (query : pyval) (t : trace)
    (parsed data d : dict) (places : list pyval) (n : Z) (e : exn) :
  requests_post (search_request valves query) = Response 200 (Ok (VDict parsed)) ->
  truthy (get_or parsed "success" VNone) = true ->
  dict_get parsed "data" = Some (VDict data) ->
  dict_get data "places" = Some (VList places) ->
  In (VDict d) (firstn 5 places) ->
  dict_get d "name" <> None ->
  dict_get d "formatted_address" <> None ->
  dict_get d "price_level" = Some (VInt n) ->
  n <> 0%Z ->
  repeat_error n = Some e ->
  call_maps_backend str_other repeat_error requests_post valves query t
  = (Ok VNone, (t ++ [search_request valves query])%list).
Proof.
  intros Hr Hs Hd Hp Hin Hname Haddr Hprice Hn He.
  pose proof (format_place_unrepeatable str_other repeat_error d n e Hname Haddr Hprice Hn He)
    as Hraise.
  destruct (format_places_raises _ _ _ Hin Hraise) as [e' He'].
  apply call_maps_backend_caught with e'. unfold call_maps_backend_try. rewrite Hr.
  cbn [Z.eqb Pos.eqb fst bind]. unfold extract_places. cbn [py_get bind].
  rewrite Hs. cbn [py_in bind]. rewrite Hd. cbn [py_getitem bind]. rewrite Hd.
  cbn [py_get bind]. rewrite (get_or_some _ _ _ _ Hp).
  destruct places as [|p ps]; [destruct Hin|].
  cbn [truthy py_first5 bind]. rewrite He'. reflexivity.
Qed.

(** X9. For a non-empty list of places of which the first five are place
    records (with a price level, if any, that the glyph can be repeated
    to), the backend client returns [min(5, len(places))] blocks, those
    of the first places in order; what stands after the fifth place is
    never looked at. *)
Theorem call_maps_backend_block_count (valves : Valves.t) (query : pyval) (t : trace)
    (parsed data : dict) (places : list pyval) :
  requests_post (search_request valves query) = Response 200 (Ok (VDict parsed)) ->
  truthy (get_or parsed "success" VNone) = true ->
  dict_get parsed "data" = Some (VDict data) ->
  dict_get data "places" = Some (VList places) ->
  places <> [] ->
  Forall (fun place => is_place_record repeat_error place = true) (firstn 5 places) ->
  exists blocks,
    call_maps_backend str_other repeat_error requests_post valves query t
    = (Ok (formatted_result blocks data (VDict parsed)),
       (t ++ [search_request valves query])%list)
    /\ List.length blocks = Nat.min 5 (List.length places)
    /\ Forall2 (fun place block => format_place str_other repeat_error place = Ok block)
         (firstn 5 places) blocks.
Proof.
  intros Hr Hs Hd Hp Hne Hrec.
  destruct (format_places_records str_other repeat_error _ Hrec) as (blocks & Hf & Hall).
  exists blocks. split; [|split].
  - apply call_maps_backend_ok. unfold call_maps_backend_try. rewrite Hr. simpl.
    now apply extract_places_formatted with places.
  - rewrite <- (Forall2_length Hall). apply length_firstn.
  - exact Hall.
Qed.

Lemma all_strings_map (blocks : list string) :
  all_strings (List.map VStr blocks) = Ok blocks.
Proof. induction blocks as [|b blocks IH]; simpl; [reflexivity | now rewrite IH]. Qed.

Lemma occurs_between (pre k post : string) : PyStr.Occurs k (pre ++ k ++ post).
Proof. exists pre, post. reflexivity. Qed.

Ltac same_text :=
  unfold PyStr.nl, PyStr.dquote; rewrite ?string_app_assoc; cbn [append]; reflexivity.

Lemma create_maps_context_blocks (blocks : list string) (data : dict)
    (parsed query : pyval) :
  blocks <> [] ->
  exists context,
    create_maps_context str_other (formatted_result blocks data parsed) query = Ok context.
Proof.
  intros Hne. unfold create_maps_context, formatted_result.
  cbn [py_get bind get_or dict_get String.eqb Ascii.eqb Bool.eqb].
  destruct blocks as [|b blocks]; [contradiction|].
  cbn [List.map truthy py_join bind].
  change (VStr b :: List.map VStr blocks) with (List.map VStr (b :: blocks)).
  rewrite all_strings_map. cbn [bind]. eexists. reflexivity.
Qed.

(** X10. The context built from a result with formatted places quotes the
    query and lists the blocks, separated by blank lines, between
    "FOUND LOCATIONS:" and "MAP LINKS:"; a map or directions URL the
    backend did not send is written as the word [None]. *)
Theorem create_maps_context_formatted (blocks : list string) (data : dict)
    (parsed query : pyval) :
  blocks <> [] ->
  exists context,
    create_maps_context str_other (formatted_result blocks data parsed) query = Ok context
    /\ PyStr.Occurs ("FOUND LOCATIONS:" ++ PyStr.nl
                     ++ PyStr.join (PyStr.nl ++ PyStr.nl) blocks ++ PyStr.nl
                     ++ PyStr.nl ++ "MAP LINKS:") context
    /\ PyStr.Occurs ("query: " ++ PyStr.dquote ++ py_str str_other query ++ PyStr.dquote)
         context
    /\ (dict_get data "map_url" = None ->
        PyStr.Occurs ("- View on Google Maps: None" ++ PyStr.nl) context)
    /\ (dict_get data "directions_url" = None ->
        PyStr.Occurs ("- Get Directions: None" ++ PyStr.nl) context).
Proof.
  intros Hne.
  set (places_text := PyStr.join (PyStr.nl ++ PyStr.nl) blocks).
  set (map_url := py_str str_other (get_or data "map_url" VNone)).
  set (directions_url := py_str str_other (get_or data "directions_url" VNone)).
  set (head := "GOOGLE MAPS SEARCH RESULTS for query: " ++ PyStr.dquote
               ++ py_str str_other query ++ PyStr.dquote ++ PyStr.nl ++ PyStr.nl).
  set (links := PyStr.nl ++ "- View on Google Maps: " ++ map_url ++ PyStr.nl
                ++ "- Get Directions: " ++ directions_url ++ PyStr.nl ++ PyStr.nl
                ++ "Please use this Google Maps data to provide a helpful response about these locations.").
  exists (head ++ "FOUND LOCATIONS:" ++ PyStr.nl ++ places_text ++ PyStr.nl ++ PyStr.nl
          ++ "MAP LINKS:" ++ links).
  split.
  - unfold create_maps_context, formatted_result.
    cbn [py_get bind get_or dict_get String.eqb Ascii.eqb Bool.eqb].
    destruct blocks as [|b blocks]; [contradiction|].
    cbn [List.map truthy py_join bind].
    change (VStr b :: List.map VStr blocks) with (List.map VStr (b :: blocks)).
    rewrite all_strings_map. cbn [bind]. f_equal. subst head links. same_text.
  - split; [|split; [|split]].
    + replace (head ++ "FOUND LOCATIONS:" ++ PyStr.nl ++ places_text ++ PyStr.nl ++ PyStr.nl
               ++ "MAP LINKS:" ++ links)
        with (head ++ ("FOUND LOCATIONS:" ++ PyStr.nl ++ places_text ++ PyStr.nl
                       ++ PyStr.nl ++ "MAP LINKS:") ++ links) by same_text.
      apply occurs_between.
    + replace (head ++ "FOUND LOCATIONS:" ++ PyStr.nl ++ places_text ++ PyStr.nl ++ PyStr.nl
               ++ "MAP LINKS:" ++ links)
        with ("GOOGLE MAPS SEARCH RESULTS for "
              ++ ("query: " ++ PyStr.dquote ++ py_str str_other query ++ PyStr.dquote)
              ++ (PyStr.nl ++ PyStr.nl ++ "FOUND LOCATIONS:" ++ PyStr.nl ++ places_text
                  ++ PyStr.nl ++ PyStr.nl ++ "MAP LINKS:" ++ links))
        by (subst head; same_text).
      apply occurs_between.
    + intros Hm. subst map_url links. unfold get_or. rewrite Hm. cbn [py_str].
      replace (head ++ "FOUND LOCATIONS:" ++ PyStr.nl ++ places_text ++ PyStr.nl ++ PyStr.nl
               ++ "MAP LINKS:" ++ PyStr.nl ++ "- View on Google Maps: " ++ "None" ++ PyStr.nl
               ++ "- Get Directions: " ++ directions_url ++ PyStr.nl ++ PyStr.nl
               ++ "Please use this Google Maps data to provide a helpful response about these locations.")
        with ((head ++ "FOUND LOCATIONS:" ++ PyStr.nl ++ places_text ++ PyStr.nl ++ PyStr.nl
               ++ "MAP LINKS:" ++ PyStr.nl)
              ++ ("- View on Google Maps: None" ++ PyStr.nl)
              ++ ("- Get Directions: " ++ directions_url ++ PyStr.nl ++ PyStr.nl
                  ++ "Please use this Google Maps data to provide a helpful response about these locations."))
        by same_text.
      apply occurs_between.
    + intros Hd. subst directions_url links. unfold get_or. rewrite Hd. cbn [py_str].
      replace (head ++ "FOUND LOCATIONS:" ++ PyStr.nl ++ places_text ++ PyStr.nl ++ PyStr.nl
               ++ "MAP LINKS:" ++ PyStr.nl ++ "- View on Google Maps: " ++ map_url ++ PyStr.nl
               ++ "- Get Directions: " ++ "None" ++ PyStr.nl ++ PyStr.nl
               ++ "Please use this Google Maps data to provide a helpful response about these locations.")
        with ((head ++ "FOUND LOCATIONS:" ++ PyStr.nl ++ places_text ++ PyStr.nl ++ PyStr.nl
               ++ "MAP LINKS:" ++ PyStr.nl ++ "- View on Google Maps: " ++ map_url ++ PyStr.nl)
              ++ ("- Get Directions: None" ++ PyStr.nl)
              ++ (PyStr.nl
                  ++ "Please use this Google Maps data to provide a helpful response about these locations."))
        by same_text.
      apply occurs_between.
Qed.
End BackendMore.

(** A 200 answer whose JSON is a list. *)
Lemma call_maps_backend_optional_dict_witness :
  call_maps_backend Sample.str_other Sample.repeat_error Edge.backend_list Valves.default
    (VStr "find pizza") []
  = (Ok VNone, [search_request Valves.default (VStr "find pizza")]).
Proof.
  apply (proj2 (call_maps_backend_optional_dict Sample.str_other Sample.repeat_error
                  Edge.backend_list Valves.default (VStr "find pizza") [])
           (VList [VInt 1])); reflexivity.
Defined.

(** The unsuccessful answer is handed back as it came. *)
Lemma call_maps_backend_raw_json_witness :
  call_maps_backend Sample.str_other Sample.repeat_error Sample.backend_unsuccessful Valves.default
    (VStr "find pizza") []
  = (Ok (VDict [("success", VBool false)]), [search_request Valves.default (VStr "find pizza")]).
Proof.
  apply (call_maps_backend_raw_json Sample.str_other Sample.repeat_error Sample.backend_unsuccessful Valves.default
           (VStr "find pizza") [] [("success", VBool false)] eq_refl).
  left. reflexivity.
Defined.

(** The third of three places has no name. *)
Lemma call_maps_backend_bad_place_witness :
  call_maps_backend Sample.str_other Sample.repeat_error Edge.backend_with_nameless Valves.default
    (VStr "find cafe") []
  = (Ok VNone, [search_request Valves.default (VStr "find cafe")]).
Proof.
  apply (call_maps_backend_bad_place Sample.str_other Sample.repeat_error Edge.backend_with_nameless Valves.default
           (VStr "find cafe") [] Edge.parsed_with_nameless Edge.data_with_nameless
           Edge.places_with_nameless Edge.nameless eq_refl eq_refl eq_refl eq_refl).
  - simpl. tauto.
  - reflexivity.
Defined.

(** The second of three places has a price level of 2^63, which is no
    index. *)
Lemma call_maps_backend_unrepeatable_price_witness :
  call_maps_backend Sample.str_other Sample.repeat_error Edge.backend_with_overpriced
    Valves.default (VStr "find cafe") []
  = (Ok VNone, [search_request Valves.default (VStr "find cafe")]).
Proof.
  apply (call_maps_backend_unrepeatable_price Sample.str_other Sample.repeat_error
           Edge.backend_with_overpriced Valves.default (VStr "find cafe") []
           Edge.parsed_with_overpriced Edge.data_with_overpriced Edge.overpriced
           Edge.places_with_overpriced (2 ^ 63) OverflowError
           eq_refl eq_refl eq_refl eq_refl).
  - simpl. tauto.
  - discriminate.
  - discriminate.
  - reflexivity.
  - discriminate.
  - reflexivity.
Defined.

(** Six places, of which the sixth is no record. *)
Lemma call_maps_backend_block_count_witness :
  exists blocks,
    call_maps_backend Sample.str_other Sample.repeat_error Edge.backend_six Valves.default (VStr "find cafe") []
    = (Ok (formatted_result blocks Edge.data_six (VDict Edge.parsed_six)),
       [search_request Valves.default (VStr "find cafe")])
    /\ List.length blocks = Nat.min 5 (List.length Edge.six_places)
    /\ Forall2 (fun place block => format_place Sample.str_other Sample.repeat_error place = Ok block)
         (firstn 5 Edge.six_places) blocks.
Proof.
  apply (call_maps_backend_block_count Sample.str_other Sample.repeat_error Edge.backend_six Valves.default
           (VStr "find cafe") [] Edge.parsed_six Edge.data_six Edge.six_places
           eq_refl eq_refl eq_refl eq_refl).
  - discriminate.
  - repeat constructor.
Defined.

(** One block and no map links. *)
Lemma create_maps_context_formatted_witness :
  exists context,
    create_maps_context Sample.str_other
      (formatted_result ["A"] Edge.data_six (VDict Edge.parsed_six)) (VStr "find cafe")
    = Ok context
    /\ PyStr.Occurs ("FOUND LOCATIONS:" ++ PyStr.nl
                     ++ PyStr.join (PyStr.nl ++ PyStr.nl) ["A"] ++ PyStr.nl
                     ++ PyStr.nl ++ "MAP LINKS:") context
    /\ PyStr.Occurs ("query: " ++ PyStr.dquote ++ py_str Sample.str_other (VStr "find cafe")
                     ++ PyStr.dquote) context
    /\ (dict_get Edge.data_six "map_url" = None ->
        PyStr.Occurs ("- View on Google Maps: None" ++ PyStr.nl) context)
    /\ (dict_get Edge.data_six "directions_url" = None ->
        PyStr.Occurs ("- Get Directions: None" ++ PyStr.nl) context).
Proof.
  apply (create_maps_context_formatted Sample.str_other ["A"] Edge.data_six
           (VDict Edge.parsed_six) (VStr "find cafe")).
  discriminate.
Defined.

(** ** The pre-call hook: requests, limits and reruns *)

Lemma dict_set_twice (d : dict) (k : string) (v v' : pyval) :
  dict_set (dict_set d k v) k v' = dict_set d k v'.
Proof.
  induction d as [|[k0 v0] d IH]; simpl.
  - now rewrite String.eqb_refl.
  - destruct (k0 =? k) eqn:E; simpl; rewrite E; [reflexivity | now rewrite IH].
Qed.

(** The steps of [inlet] up to the latest message. *)
Ltac to_latest Hm :=
  rewrite Hm; cbn [py_len]; rewrite truthy_snoc, py_last_snoc; cbn [negb py_get].

Section PreCallMore.
Variable unicode_lower : string -> nat -> string.
Variable str_other : pyval -> string.
Variable repeat_error : Z -> option exn.
Variable requests_post : request -> http_outcome.

(** The pre-call hook once the backend client has given a result. *)
Lemma inlet_with_result (valves : Valves.t) (body : dict) (user : option dict) (t : trace)
    (earlier : list pyval) (latest : dict) (text : string) (v : pyval) :
  check_turn_limit valves body user = Ok tt ->
  Valves.enable_maps_integration valves = true ->
  disabled_for_user (user_valves_of user) = false ->
  get_or body "messages" (VList []) = VList (earlier ++ [VDict latest]) ->
  dict_get latest "role" = Some (VStr "user") ->
  get_or latest "content" (VStr "") = VStr text ->
  is_location_query unicode_lower (VStr text) = Ok true ->
  fst (call_maps_backend str_other repeat_error requests_post valves (VStr text) []) = Ok v ->
  truthy v = true ->
  inlet unicode_lower str_other repeat_error requests_post valves body user t
  = (match create_maps_context str_other v (VStr text) with
     | Ok maps_context =>
         Ok (dict_set body "messages"
               (VList (system_message maps_context :: earlier ++ [VDict latest])))
     | Raise e => Raise e
     end,
     (t ++ [search_request valves (VStr text)])%list).
Proof.
  intros Hguard Hon Huser Hm Hrole Hc Hq Hv Htrue.
  unfold inlet, io_bind, io_lift, io_ret. rewrite Hguard, Hon, Huser. cbn [negb].
  to_latest Hm. rewrite (get_or_some _ _ _ _ Hrole). cbn [not_user_role String.eqb
    Ascii.eqb Bool.eqb negb].
  rewrite Hc, Hq.
  rewrite <- call_maps_backend_any_trace with (t := t) in Hv.
  destruct (call_maps_backend_returns str_other repeat_error requests_post valves (VStr text) t)
    as [v' Hcall].
  rewrite Hcall in Hv |- *. simpl in Hv. injection Hv as ->. rewrite Htrue.
  destruct (create_maps_context str_other v (VStr text)); reflexivity.
Qed.

(** X11. One run of the pre-call hook sends no request, or exactly one:
    then the integration is enabled, the classifier has answered [True]
    for the query, and the request asks for type "restaurant" within
    radius 5000 whatever the query is. *)
Theorem inlet_at_most_one_request (valves : Valves.t) (body : dict) (user : option dict)
    (t : trace) :
  snd (inlet unicode_lower str_other repeat_error requests_post valves body user t) = t
  \/ exists query,
      snd (inlet unicode_lower str_other repeat_error requests_post valves body user t)
      = (t ++ [search_request valves query])%list
      /\ is_location_query unicode_lower query = Ok true
      /\ Valves.enable_maps_integration valves = true
      /\ req_json (search_request valves query)
         = VDict [("query", query); ("radius", VInt 5000); ("type", VStr "restaurant")].
Proof.
  unfold inlet, io_bind, io_lift, io_ret.
  destruct (check_turn_limit valves body user); [|now left].
  destruct (Valves.enable_maps_integration valves) eqn:Hon; [|now left]. cbn [negb].
  destruct (disabled_for_user (user_valves_of user)); [now left|].
  destruct (py_len (get_or body "messages" (VList []))); [|now left].
  destruct (negb (truthy (get_or body "messages" (VList [])))); [now left|].
  destruct (py_last (get_or body "messages" (VList []))) as [latest|]; [|now left].
  destruct (py_get latest "role" VNone) as [role|]; [|now left].
  destruct (not_user_role role); [now left|].
  destruct (py_get latest "content" (VStr "")) as [query|]; [|now left].
  destruct (is_location_query unicode_lower query) as [[|]|] eqn:Hq; try (now left).
  right. exists query.
  destruct (call_maps_backend_returns str_other repeat_error requests_post valves query t) as [v ->].
  split; [|auto].
  destruct (truthy v); [|reflexivity].
  destruct (create_maps_context str_other v query); [|reflexivity].
  destruct (prepend _ _); reflexivity.
Qed.

(** X12. For a non-empty user context with a checked role, the turn check
    passes exactly when the message count is at most
    [min(user_max_turns, self.valves.max_turns)]: a conversation of
    exactly that many messages is let through. *)
Theorem check_turn_limit_boundary (valves : Valves.t) (body u : dict)
    (messages : list pyval) :
  u <> [] ->
  role_checked (get_or u "role" (VStr "admin")) = true ->
  get_or body "messages" (VList []) = VList messages ->
  (check_turn_limit valves body (Some u) = Ok tt
   <-> (Z.of_nat (List.length messages) <= effective_max_turns valves u)%Z).
Proof.
  intros Hu Hrole Hm. unfold check_turn_limit.
  rewrite (truthy_user u Hu), Hrole, Hm. cbn [andb py_len bind].
  fold (effective_max_turns valves u).
  destruct (Z.of_nat (List.length messages) >? effective_max_turns valves u)%Z eqn:E.
  - rewrite Z.gtb_ltb, Z.ltb_lt in E. split; [discriminate | lia].
  - rewrite Z.gtb_ltb, Z.ltb_ge in E. split; [lia | reflexivity].
Qed.

Lemma inlet_no_exception_after_check (valves : Valves.t) (body : dict) (user : option dict) :
  check_turn_limit valves body user = Ok tt ->
  io_no_exception (inlet unicode_lower str_other repeat_error requests_post valves body user).
Proof.
  intros Hguard. unfold inlet. rewrite Hguard.
  repeat first
    [ apply io_no_exception_bind;
      [auto using io_no_exception_ret, io_no_exception_lift, py_len_no_exception,
         py_last_no_exception, py_get_no_exception, prepend_no_exception,
         is_location_query_no_exception, create_maps_context_no_exception,
         call_maps_backend_no_exception, no_exception_ok
      | intros]
    | apply io_no_exception_if
    | solve [auto using io_no_exception_ret, io_no_exception_lift, py_len_no_exception,
         py_last_no_exception, py_get_no_exception, prepend_no_exception,
         is_location_query_no_exception, create_maps_context_no_exception,
         call_maps_backend_no_exception, no_exception_ok] ].
Qed.

(** X13. For a user context that is an empty [dict], or whose role is
    neither ["user"] nor ["admin"], the pre-call hook never raises the
    turn-limit exception, however long the conversation. *)
Theorem inlet_unchecked_roles (valves : Valves.t) (body u : dict) (t : trace) (msg : string) :
  u = [] \/ role_checked (get_or u "role" (VStr "admin")) = false ->
  fst (inlet unicode_lower str_other repeat_error requests_post valves body (Some u) t)
  <> Raise (Exception msg).
Proof.
  intros H. apply inlet_no_exception_after_check.
  unfold check_turn_limit. destruct H as [->|H]; [reflexivity|].
  rewrite H, andb_false_r. reflexivity.
Qed.

(** X14. When the latest message is the user's and its content is not a
    string (a list of parts, [null]), the pre-call hook, with the
    integration enabled, raises [AttributeError] and sends no request. *)
Theorem inlet_content_not_text (valves : Valves.t) (body : dict) (user : option dict)
    (t : trace) (earlier : list pyval) (latest : dict) (content : pyval) :
  check_turn_limit valves body user = Ok tt ->
  Valves.enable_maps_integration valves = true ->
  disabled_for_user (user_valves_of user) = false ->
  get_or body "messages" (VList []) = VList (earlier ++ [VDict latest]) ->
  dict_get latest "role" = Some (VStr "user") ->
  dict_get latest "content" = Some content ->
  is_str content = false ->
  inlet unicode_lower str_other repeat_error requests_post valves body user t = (Raise AttributeError, t).
Proof.
  intros Hguard Hon Huser Hm Hrole Hc Hs.
  unfold inlet, io_bind, io_lift, io_ret. rewrite Hguard, Hon, Huser. cbn [negb].
  to_latest Hm. rewrite (get_or_some _ _ _ _ Hrole). cbn [not_user_role String.eqb
    Ascii.eqb Bool.eqb negb].
  rewrite (get_or_some _ _ _ _ Hc). destruct content; try discriminate; reflexivity.
Qed.

(** X15. With the integration enabled, a location query from the user and
    a 200 answer whose [data.places] starts with place records (with a
    price level, if any, that the glyph can be repeated to), the
    pre-call hook sends one request and returns the body with one system
    message put before the messages, built from the context of the blocks
    of the first places. *)
Theorem inlet_injects_places (valves : Valves.t) (body : dict) (user : option dict)
    (t : trace) (earlier : list pyval) (latest : dict) (text : string)
    (parsed data : dict) (places : list pyval) :
  check_turn_limit valves body user = Ok tt ->
  Valves.enable_maps_integration valves = true ->
  disabled_for_user (user_valves_of user) = false ->
  get_or body "messages" (VList []) = VList (earlier ++ [VDict latest]) ->
  dict_get latest "role" = Some (VStr "user") ->
  get_or latest "content" (VStr "") = VStr text ->
  is_location_query unicode_lower (VStr text) = Ok true ->
  requests_post (search_request valves (VStr text)) = Response 200 (Ok (VDict parsed)) ->
  truthy (get_or parsed "success" VNone) = true ->
  dict_get parsed "data" = Some (VDict data) ->
  dict_get data "places" = Some (VList places) ->
  places <> [] ->
  Forall (fun place => is_place_record repeat_error place = true) (firstn 5 places) ->
  exists blocks maps_context,
    Forall2 (fun place block => format_place str_other repeat_error place = Ok block)
      (firstn 5 places) blocks
    /\ create_maps_context str_other (formatted_result blocks data (VDict parsed)) (VStr text)
       = Ok maps_context
    /\ inlet unicode_lower str_other repeat_error requests_post valves body user t
       = (Ok (dict_set body "messages"
                (VList (system_message maps_context :: earlier ++ [VDict latest]))),
          (t ++ [search_request valves (VStr text)])%list).
Proof.
  intros Hguard Hon Huser Hm Hrole Hc Hq Hr Hs Hd Hp Hne Hrec.
  destruct (format_places_records str_other repeat_error _ Hrec) as (blocks & Hf & Hall).
  assert (Hblocks : blocks <> []).
  { intros ->. inversion Hall as [Hnil|]. destruct places; [contradiction | discriminate]. }
  destruct (create_maps_context_blocks str_other blocks data (VDict parsed) (VStr text) Hblocks)
    as [maps_context Hctx].
  exists blocks, maps_context. split; [exact Hall|]. split; [exact Hctx|].
  rewrite (inlet_with_result valves body user t earlier latest text
             (formatted_result blocks data (VDict parsed))); auto.
  - rewrite Hctx. reflexivity.
  - erewrite call_maps_backend_ok; [reflexivity|].
    unfold call_maps_backend_try. rewrite Hr. simpl.
    now apply extract_places_formatted with places.
Qed.

(** X16. An error of the context builder is not caught: when the backend
    answers 200 with an unsuccessful JSON that carries a truthy
    ["formatted_places"] which cannot be joined (a number, a list with an
    item that is no string), the pre-call hook raises that error after
    the request was sent. *)
Theorem inlet_context_error_escapes (valves : Valves.t) (body : dict) (user : option dict)
    (t : trace) (earlier : list pyval) (latest : dict) (text : string)
    (parsed : dict) (listing : pyval) (e : exn) :
  check_turn_limit valves body user = Ok tt ->
  Valves.enable_maps_integration valves = true ->
  disabled_for_user (user_valves_of user) = false ->
  get_or body "messages" (VList []) = VList (earlier ++ [VDict latest]) ->
  dict_get latest "role" = Some (VStr "user") ->
  get_or latest "content" (VStr "") = VStr text ->
  is_location_query unicode_lower (VStr text) = Ok true ->
  requests_post (search_request valves (VStr text)) = Response 200 (Ok (VDict parsed)) ->
  truthy (get_or parsed "success" VNone) = false ->
  dict_get parsed "formatted_places" = Some listing ->
  truthy listing = true ->
  py_join (PyStr.nl ++ PyStr.nl) listing = Raise e ->
  inlet unicode_lower str_other repeat_error requests_post valves body user t
  = (Raise e, (t ++ [search_request valves (VStr text)])%list).
Proof.
  intros Hguard Hon Huser Hm Hrole Hc Hq Hr Hs Hl Ht He.
  rewrite (inlet_with_result valves body user t earlier latest text (VDict parsed)); auto.
  - unfold create_maps_context. cbn [py_get bind].
    rewrite (get_or_some _ _ _ _ Hl), Ht, He. reflexivity.
  - erewrite call_maps_backend_ok; [reflexivity|].
    unfold call_maps_backend_try. rewrite Hr. simpl.
    unfold extract_places. cbn [py_get bind]. rewrite Hs. reflexivity.
  - destruct parsed; [discriminate | reflexivity].
Qed.

(** X17. The pre-call hook is not idempotent: run again on the body it
    returned, with the same backend answer, it puts a second copy of the
    system message before the first (provided the longer conversation
    still passes the turn check). *)
Theorem inlet_stacks_on_rerun (valves : Valves.t) (body : dict) (user : option dict)
    (t : trace) (earlier : list pyval) (latest : dict) (text maps_context : string)
    (v : pyval) (body' : dict) :
  check_turn_limit valves body user = Ok tt ->
  Valves.enable_maps_integration valves = true ->
  disabled_for_user (user_valves_of user) = false ->
  get_or body "messages" (VList []) = VList (earlier ++ [VDict latest]) ->
  dict_get latest "role" = Some (VStr "user") ->
  get_or latest "content" (VStr "") = VStr text ->
  is_location_query unicode_lower (VStr text) = Ok true ->
  fst (call_maps_backend str_other repeat_error requests_post valves (VStr text) []) = Ok v ->
  truthy v = true ->
  create_maps_context str_other v (VStr text) = Ok maps_context ->
  body' = dict_set body "messages"
            (VList (system_message maps_context :: earlier ++ [VDict latest])) ->
  check_turn_limit valves body' user = Ok tt ->
  fst (inlet unicode_lower str_other repeat_error requests_post valves body user t) = Ok body'
  /\ inlet unicode_lower str_other repeat_error requests_post valves body' user t
     = (Ok (dict_set body "messages"
              (VList (system_message maps_context :: system_message maps_context
                      :: earlier ++ [VDict latest]))),
        (t ++ [search_request valves (VStr text)])%list).
Proof.
  intros Hguard Hon Huser Hm Hrole Hc Hq Hv Htrue Hctx -> Hguard'. split.
  - rewrite (inlet_with_result valves body user t earlier latest text v); auto.
    rewrite Hctx. reflexivity.
  - assert (Hm' : get_or (dict_set body "messages"
                            (VList (system_message maps_context :: earlier ++ [VDict latest])))
                    "messages" (VList [])
                  = VList ((system_message maps_context :: earlier) ++ [VDict latest])).
    { unfold get_or. rewrite dict_get_set_same. reflexivity. }
    rewrite (inlet_with_result valves _ user t _ latest text v Hguard' Hon Huser Hm'); auto.
    rewrite Hctx, dict_set_twice. reflexivity.
Qed.
End PreCallMore.

(** A conversation of exactly four messages under the default limits. *)
Lemma check_turn_limit_boundary_witness :
  check_turn_limit Valves.default Edge.body_of_four (Some Sample.admin) = Ok tt
  <-> (Z.of_nat (List.length Edge.four_messages)
       <= effective_max_turns Valves.default Sample.admin)%Z.
Proof.
  apply (check_turn_limit_boundary Valves.default Edge.body_of_four Sample.admin
           Edge.four_messages).
  - discriminate.
  - reflexivity.
  - reflexivity.
Defined.

(** Nine messages and a role that is not checked. *)
Lemma inlet_unchecked_roles_witness :
  fst (inlet Sample.unicode_lower Sample.str_other Sample.repeat_error Sample.backend_ok Valves.default
         Sample.long_body (Some Edge.pending) [])
  <> Raise (Exception "Conversation turn limit exceeded. Max turns: 4").
Proof.
  apply (inlet_unchecked_roles Sample.unicode_lower Sample.str_other Sample.repeat_error Sample.backend_ok
           Valves.default Sample.long_body Edge.pending []).
  right. reflexivity.
Defined.

(** A user message whose content is a list of parts. *)
Lemma inlet_content_not_text_witness :
  inlet Sample.unicode_lower Sample.str_other Sample.repeat_error Sample.backend_ok Valves.default
    Edge.body_with_parts None []
  = (Raise AttributeError, []).
Proof.
  apply (inlet_content_not_text Sample.unicode_lower Sample.str_other Sample.repeat_error Sample.backend_ok
           Valves.default Edge.body_with_parts None [] [] Edge.message_with_parts Edge.parts);
    reflexivity.
Defined.

(** ["find cafe"] against a backend with seven places. *)
Lemma inlet_injects_places_witness :
  exists blocks maps_context,
    Forall2 (fun place block => format_place Sample.str_other Sample.repeat_error place = Ok block)
      (firstn 5 Sample.seven_places) blocks
    /\ create_maps_context Sample.str_other
         (formatted_result blocks Sample.search_data (VDict Sample.search_ok))
         (VStr "find cafe")
       = Ok maps_context
    /\ inlet Sample.unicode_lower Sample.str_other Sample.repeat_error Sample.backend_ok Valves.default
         (Sample.body_of "find cafe") None []
       = (Ok (dict_set (Sample.body_of "find cafe") "messages"
                (VList (system_message maps_context
                        :: [] ++ [Sample.user_message "find cafe"]))),
          [search_request Valves.default (VStr "find cafe")]).
Proof.
  apply (inlet_injects_places Sample.unicode_lower Sample.str_other Sample.repeat_error Sample.backend_ok
           Valves.default (Sample.body_of "find cafe") None [] []
           [("role", VStr "user"); ("content", VStr "find cafe")] "find cafe"
           Sample.search_ok Sample.search_data Sample.seven_places);
    try reflexivity.
  - discriminate.
  - repeat constructor.
Defined.

(** An unsuccessful answer with a listing of numbers. *)
Lemma inlet_context_error_escapes_witness :
  inlet Sample.unicode_lower Sample.str_other Sample.repeat_error Edge.backend_bad_listing Valves.default
    (Sample.body_of "find pizza") None []
  = (Raise TypeError, [search_request Valves.default (VStr "find pizza")]).
Proof.
  apply (inlet_context_error_escapes Sample.unicode_lower Sample.str_other Sample.repeat_error
           Edge.backend_bad_listing Valves.default (Sample.body_of "find pizza") None [] []
           [("role", VStr "user"); ("content", VStr "find pizza")] "find pizza"
           Edge.bad_listing (VList [VInt 1]) TypeError);
    reflexivity.
Defined.

(** ["find cafe"] run twice against the same backend. *)
Lemma inlet_stacks_on_rerun_witness :
  fst (inlet Sample.unicode_lower Sample.str_other Sample.repeat_error Sample.backend_ok Valves.default
         (Sample.body_of "find cafe") None [])
  = Ok (dict_set (Sample.body_of "find cafe") "messages"
          (VList (system_message Edge.cafe_context
                  :: [] ++ [Sample.user_message "find cafe"])))
  /\ inlet Sample.unicode_lower Sample.str_other Sample.repeat_error Sample.backend_ok Valves.default
       (dict_set (Sample.body_of "find cafe") "messages"
          (VList (system_message Edge.cafe_context
                  :: [] ++ [Sample.user_message "find cafe"])))
       None []
     = (Ok (dict_set (Sample.body_of "find cafe") "messages"
              (VList (system_message Edge.cafe_context :: system_message Edge.cafe_context
                      :: [] ++ [Sample.user_message "find cafe"]))),
        [search_request Valves.default (VStr "find cafe")]).
Proof.
  apply (inlet_stacks_on_rerun Sample.unicode_lower Sample.str_other Sample.repeat_error Sample.backend_ok
           Valves.default (Sample.body_of "find cafe") None [] []
           [("role", VStr "user"); ("content", VStr "find cafe")] "find cafe"
           Edge.cafe_context Edge.cafe_result);
    try reflexivity; vm_compute; reflexivity.
Defined.

